(** * DefiDazzleAgent: the opportunity-aggregation and risk-scoring engine

    A shallow embedding of the calculators of [Portfolio Optimiser Core]
    ([calculations/apr_calculator.py], [calculations/risk_calculator.py],
    [calculations/price_calculator.py], [calculations/data_fetcher.py]), of the
    scan shells of [strategies/YieldScanner.py] and of the ranking of
    [defitrader.py], followed by the properties checked against them.

    Number model.  Python [float] and [Decimal] values are embedded as exact
    rationals ([Q]); the one function that takes a square root
    ([calculate_pool_volatility]) is embedded over the reals ([R]).  Rounding
    of binary64 and of the 28-digit decimal context is therefore not part of
    the model; comparisons, guards and control flow are.  On-chain integers
    ([uint256] call results) are [Z].

    Exceptions.  A Python call either returns a value or raises; this is the
    type [result] below, and [try ... except] blocks are written out as
    matches on it. *)

From Stdlib Require Import ZArith QArith Qminmax Qpower Qabs.
From Stdlib Require Import Lia Lra Lqa.
From Stdlib Require Import List String Bool.
From Stdlib Require Import Permutation Sorted.
From Stdlib Require Import Reals.
Import ListNotations.

Local Open Scope string_scope.
Local Open Scope Q_scope.

(** ** Results of Python calls *)

Inductive result (A : Type) : Type :=
| Ok (a : A)
| Raise (msg : string).

Arguments Ok {A} a.
Arguments Raise {A} msg.

Definition bind {A B : Type} (r : result A) (k : A -> result B) : result B :=
  match r with
  | Ok a => k a
  | Raise msg => Raise msg
  end.

Notation "x <- r ;; k" := (bind r (fun x => k))
  (at level 61, r at next level, right associativity).

(** [try: body except Exception as e: raise Exception(prefix + str(e))] *)
Definition reraise {A : Type} (prefix : string) (r : result A) : result A :=
  match r with
  | Ok a => Ok a
  | Raise msg => Raise (prefix ++ msg)
  end.

(** Division of two [Decimal]s: a zero divisor raises
    ([DivisionByZero], or [InvalidOperation] for 0/0). *)
Definition decimal_div (a b : Q) : result Q :=
  if Qeq_bool b 0 then
    (if Qeq_bool a 0
     then Raise "[<class 'decimal.DivisionUndefined'>]"
     else Raise "[<class 'decimal.DivisionByZero'>]")
  else Ok (a / b).

(** [a / b] on two [float]s: [ZeroDivisionError] on a zero divisor. *)
Definition float_div (a b : Q) : result Q :=
  if Qeq_bool b 0 then Raise "float division by zero" else Ok (a / b).

(** [a / b] on two [int]s (true division). *)
Definition int_div (a b : Z) : result Q :=
  if (b =? 0)%Z then Raise "division by zero"
  else Ok (inject_Z a / inject_Z b).

(** ** Python strings, lists and dicts *)

(** [str.lower()], on ASCII strings. *)
Definition lower_ascii (c : Ascii.ascii) : Ascii.ascii :=
  let n := Ascii.N_of_ascii c in
  if ((65 <=? n) && (n <=? 90))%N then Ascii.ascii_of_N (n + 32) else c.

Fixpoint lower (s : string) : string :=
  match s with
  | EmptyString => EmptyString
  | String c rest => String (lower_ascii c) (lower rest)
  end.

(** A dict literal with distinct string keys, in the order it is written;
    [dict_get d key] is [d.get(key)]. *)
Fixpoint dict_get {V : Type} (d : list (string * V)) (key : string)
    : option V :=
  match d with
  | [] => None
  | (k, v) :: rest => if String.eqb k key then Some v else dict_get rest key
  end.

(** [d[key]]: [KeyError] when the key is missing. *)
Definition dict_item {V : Type} (d : list (string * V)) (key : string)
    : result V :=
  match dict_get d key with
  | Some v => Ok v
  | None => Raise ("'" ++ key ++ "'")
  end.

(** [l[i]] for [i >= 0]: [IndexError] past the end. *)
Definition list_item {A : Type} (l : list A) (i : nat) : result A :=
  match nth_error l i with
  | Some x => Ok x
  | None => Raise "list index out of range"
  end.

(** [l[-k]] for [k >= 1]. *)
Definition list_item_from_end {A : Type} (l : list A) (k : nat) : result A :=
  list_item (rev l) (k - 1).

(** ** calculations/risk_calculator.py *)

Module RiskCalculator.

(** [self.RISK_WEIGHTS], a dict with the five fixed keys. *)
Record RiskWeights : Type := mkWeights {
  w_tvl : Q;
  w_volatility : Q;
  w_age : Q;
  w_il : Q;
  w_protocol : Q
}.

Definition RISK_WEIGHTS : RiskWeights :=
  {| w_tvl := 0.25;
     w_volatility := 0.20;
     w_age := 0.15;
     w_il := 0.20;
     w_protocol := 0.20 |}.

(** The loop [for threshold, risk in TABLE.items(): if x >= threshold:
    return risk]; a dict literal is visited in the order it is written. *)
Fixpoint first_threshold (table : list (Q * Q)) (x : Q) : option Q :=
  match table with
  | [] => None
  | (threshold, risk) :: rest =>
      if Qle_bool threshold x then Some risk else first_threshold rest x
  end.

Definition TVL_THRESHOLDS : list (Q * Q) :=
  [ (10_000_000, 0.1);
    (5_000_000, 0.3);
    (1_000_000, 0.5);
    (500_000, 0.7);
    (0, 0.9) ].

Definition calculate_tvl_risk (tvl : Q) : Q :=
  match first_threshold TVL_THRESHOLDS tvl with
  | Some risk => risk
  | None => 1.0
  end.

Definition AGE_THRESHOLDS : list (Q * Q) :=
  [ (365, 0.2);
    (180, 0.4);
    (90, 0.6);
    (30, 0.8);
    (0, 1.0) ].

Definition calculate_age_risk (age_in_days : Z) : Q :=
  match first_threshold AGE_THRESHOLDS (inject_Z age_in_days) with
  | Some risk => risk
  | None => 1.0
  end.

(** [min(1.0, max(0.0, float(composite_score)))] *)
Definition calculate_composite_risk_score_with (weights : RiskWeights)
    (tvl_score volatility_score age_score il_risk protocol_score : Q) : Q :=
  let composite_score :=
    tvl_score * w_tvl weights +
    volatility_score * w_volatility weights +
    age_score * w_age weights +
    il_risk * w_il weights +
    (1 - protocol_score) * w_protocol weights in
  Qmin 1.0 (Qmax 0.0 composite_score).

Definition calculate_composite_risk_score :=
  calculate_composite_risk_score_with RISK_WEIGHTS.

(** *** Volatility, over the reals (numpy's [diff], [mean], [std]) *)

(** [np.diff(a)]: [a[i+1] - a[i]]. *)
Fixpoint np_diff (a : list R) : list R :=
  match a with
  | [] => []
  | x :: rest =>
      match rest with
      | [] => []
      | y :: _ => (y - x)%R :: np_diff rest
      end
  end.

(** [u / v] on arrays of one length, element by element. *)
Fixpoint np_divide (u v : list R) : list R :=
  match u, v with
  | x :: u', y :: v' => (x / y)%R :: np_divide u' v'
  | _, _ => []
  end.

Definition np_sum (a : list R) : R := fold_right Rplus 0%R a.

Definition np_mean (a : list R) : R := (np_sum a / INR (List.length a))%R.

(** [np.std(a)] with the default [ddof=0]:
    [sqrt(mean(abs(a - a.mean())**2))]. *)
Definition np_std (a : list R) : R :=
  let m := np_mean a in
  sqrt (np_mean (map (fun x => (Rabs (x - m) ^ 2)%R) a)).

Definition daily_returns (price_history : list R) : list R :=
  np_divide (np_diff price_history) (removelast price_history).

Definition calculate_pool_volatility (price_history : list R) : R :=
  if (List.length price_history <? 2)%nat then 0%R
  else
    let returns := daily_returns price_history in
    let daily_vol := np_std returns in
    let annual_vol := (daily_vol * sqrt 365)%R in
    let volatility_score := Rmin 1 annual_vol in
    volatility_score.

(** *** Impermanent loss, over the reals *)

(** [a / b] on two [float]s: [ZeroDivisionError] on a zero divisor. *)
Definition real_div (a b : R) : result R :=
  if Req_dec_T b 0%R then Raise "float division by zero" else Ok (a / b)%R.

(** [[t1/t0 for t0, t1 in zip(token0_price_history, token1_price_history)]] *)
Fixpoint price_ratios (token0_price_history token1_price_history : list R)
    : result (list R) :=
  match token0_price_history, token1_price_history with
  | t0 :: rest0, t1 :: rest1 =>
      ratio <- real_div t1 t0 ;;
      rest <- price_ratios rest0 rest1 ;;
      Ok (ratio :: rest)
  | _, _ => Ok []
  end.

(** The loop of [_calculate_max_drawdown]. *)
Fixpoint drawdown_loop (values : list R) (peak max_drawdown : R)
    : result R :=
  match values with
  | [] => Ok max_drawdown
  | value :: rest =>
      let peak := if Rlt_dec peak value then value else peak in
      drawdown <- real_div (peak - value) peak ;;
      drawdown_loop rest peak (Rmax max_drawdown drawdown)
  end.

Definition _calculate_max_drawdown (values : list R) : result R :=
  peak <- list_item values 0 ;;
  drawdown_loop values peak 0%R.

Definition calculate_impermanent_loss_risk
    (token0_price_history token1_price_history : list R) : result R :=
  reraise "Error calculating IL risk: "
    (if negb (List.length token0_price_history
              =? List.length token1_price_history)%nat
     then Raise "Price history lengths must match"
     else
       ratios <- price_ratios token0_price_history token1_price_history ;;
       let ratio_volatility := np_std ratios in
       max_drawdown <- _calculate_max_drawdown ratios ;;
       let vol_score := Rmin 1 ratio_volatility in
       let drawdown_score := Rmin 1 max_drawdown in
       let il_risk := (vol_score * 0.7 + drawdown_score * 0.3)%R in
       Ok il_risk).

(** *** Protocol health *)

Definition PROTOCOL_BASE_SCORES : list (string * Q) :=
  [ ("pancakeswap", 0.9);
    ("venus", 0.85);
    ("alpaca", 0.8);
    ("biswap", 0.75) ].

Definition calculate_protocol_health_score (protocol : string)
    (tvl_history : list Q) (user_count days_since_audit : Z) : result Q :=
  reraise "Error calculating protocol health: "
    (let base_score :=
       match dict_get PROTOCOL_BASE_SCORES (lower protocol) with
       | Some score => score
       | None => 0.5
       end in
     tvl_growth <-
       (if (1 <? List.length tvl_history)%nat
        then
          ratio <- float_div (last tvl_history 0) (hd 0 tvl_history) ;;
          Ok (ratio - 1)
        else Ok 0) ;;
     let tvl_growth_score := Qmin 1.0 (Qmax 0.0 ((tvl_growth + 0.5) / 1.5)) in
     let user_score := Qmin 1.0 (inject_Z user_count / 100000) in
     let audit_score := Qmax 0.0 (Qmin 1.0 (inject_Z days_since_audit / 365)) in
     let health_score :=
       base_score * 0.4 +
       tvl_growth_score * 0.2 +
       user_score * 0.2 +
       audit_score * 0.2 in
     Ok health_score).

End RiskCalculator.

(** ** calculations/apr_calculator.py *)

Module APRCalculator.

Definition BLOCKS_PER_YEAR : Q := 10512000.
Definition PRECISION : Q := 1000000000000000000.

(** [pool_info], the tuple returned by [poolInfo(pid)]; only its first
    two components are read. *)
Record PoolInfo : Type := mkPoolInfo {
  lpToken : string;
  allocPoint : Z
}.

(** The read-only calls made on a MasterChef-like farm contract.  A call
    returns a [uint256] or raises (RPC failure). *)
Record MasterChef : Type := mkMasterChef {
  cakePerBlock : result Z;
  bswPerBlock : result Z;
  totalAllocPoint : result Z
}.

Record FairLaunch : Type := mkFairLaunch {
  poolInfo : nat -> result PoolInfo;
  fl_totalAllocPoint : result Z;
  alpacaPerBlock : result Z
}.

Record VenusMarket : Type := mkVenusMarket {
  supplyRatePerBlock : result Z;
  borrowRatePerBlock : result Z
}.

Record AlpacaVault : Type := mkAlpacaVault {
  totalToken : result Z;
  vaultDebtVal : result Z
}.

Definition calculate_pancake_apr (pid : nat) (pool_info : PoolInfo)
    (masterchef : MasterChef) (cake_price pool_tvl : Q) : result Q :=
  reraise "Error calculating PancakeSwap APR: "
    (cake_per_block <- cakePerBlock masterchef ;;
     total_alloc_points <- totalAllocPoint masterchef ;;
     let pool_alloc_points := allocPoint pool_info in
     if Qeq_bool (inject_Z total_alloc_points) 0 || Qeq_bool pool_tvl 0
     then Ok 0
     else
       yearly_cake_rewards <-
         decimal_div (inject_Z cake_per_block * BLOCKS_PER_YEAR
                      * inject_Z pool_alloc_points)
                     (inject_Z total_alloc_points) ;;
       yearly_cake_usd <-
         decimal_div (yearly_cake_rewards * cake_price) PRECISION ;;
       ratio <- decimal_div yearly_cake_usd pool_tvl ;;
       Ok (ratio * 100)).

Definition calculate_venus_rates (market_contract : VenusMarket)
    : result (Q * Q) :=
  reraise "Error calculating Venus rates: "
    (supply_rate <- supplyRatePerBlock market_contract ;;
     borrow_rate <- borrowRatePerBlock market_contract ;;
     supply_scaled <-
       decimal_div (inject_Z supply_rate * BLOCKS_PER_YEAR) PRECISION ;;
     let supply_apy := ((1 + supply_scaled) - 1) * 100 in
     borrow_scaled <-
       decimal_div (inject_Z borrow_rate * BLOCKS_PER_YEAR) PRECISION ;;
     let borrow_apy := ((1 + borrow_scaled) - 1) * 100 in
     Ok (supply_apy, borrow_apy)).

Definition calculate_alpaca_base_apy (vault_contract : AlpacaVault)
    : result Q :=
  reraise "Error calculating Alpaca base APY: "
    (total_token <- totalToken vault_contract ;;
     total_debt <- vaultDebtVal vault_contract ;;
     if Qeq_bool (inject_Z total_token) 0
     then Ok 0
     else
       utilization <-
         decimal_div (inject_Z total_debt) (inject_Z total_token) ;;
       let lending_apr := utilization * 0.15 * 100 in
       Ok lending_apr).

Definition calculate_alpaca_reward_apy (pid : nat) (fairlaunch : FairLaunch)
    (tvl alpaca_price : Q) : result Q :=
  reraise "Error calculating Alpaca reward APY: "
    (pool_info <- poolInfo fairlaunch pid ;;
     total_alloc_point <- fl_totalAllocPoint fairlaunch ;;
     alpaca_per_block <- alpacaPerBlock fairlaunch ;;
     let pool_alloc_points := allocPoint pool_info in
     if Qeq_bool (inject_Z total_alloc_point) 0 || Qeq_bool tvl 0
     then Ok 0
     else
       yearly_alpaca <-
         decimal_div (inject_Z alpaca_per_block * BLOCKS_PER_YEAR
                      * inject_Z pool_alloc_points)
                     (inject_Z total_alloc_point) ;;
       yearly_alpaca_usd <-
         decimal_div (yearly_alpaca * alpaca_price) PRECISION ;;
       ratio <- decimal_div yearly_alpaca_usd tvl ;;
       Ok (ratio * 100)).

Definition calculate_biswap_apr (pid : nat) (pool_info : PoolInfo)
    (masterchef : MasterChef) (bsw_price pool_tvl : Q) : result Q :=
  reraise "Error calculating Biswap APR: "
    (bsw_per_block <- bswPerBlock masterchef ;;
     total_alloc_points <- totalAllocPoint masterchef ;;
     let pool_alloc_points := allocPoint pool_info in
     if Qeq_bool (inject_Z total_alloc_points) 0 || Qeq_bool pool_tvl 0
     then Ok 0
     else
       yearly_bsw <-
         decimal_div (inject_Z bsw_per_block * BLOCKS_PER_YEAR
                      * inject_Z pool_alloc_points)
                     (inject_Z total_alloc_points) ;;
       yearly_bsw_usd <-
         decimal_div (yearly_bsw * bsw_price) PRECISION ;;
       ratio <- decimal_div yearly_bsw_usd pool_tvl ;;
       Ok (ratio * 100)).

End APRCalculator.

(** ** calculations/data_fetcher.py *)

Module DataFetcher.

(** [get_lending_borrow_rates] evaluates
    [((1 + rate / 1e18) ** blocks_per_year - 1) * 100] in binary64.  Within
    the range of on-chain rates that power rounds [1 + rate / 1e18] to 1.0,
    loses most of its digits or overflows, so it has no counterpart over
    exact numbers and is not embedded. *)

Definition _calculate_change (old_value new_value : Q) : Q :=
  if Qeq_bool old_value 0 then 0
  else ((new_value - old_value) / old_value) * 100.

(** What [get_protocol_metrics] reads of the DefiLlama response: the
    [totalLiquidityUSD] of each entry of [data['tvl']], and
    [data.get('mcap')].  A response lacking the keys read raises as well;
    it is counted among the failures of the request. *)
Record ProtocolData : Type := mkProtocolData {
  tvl_series : list Q;
  mcap : option Q
}.

Record ProtocolMetrics : Type := mkProtocolMetrics {
  metrics_tvl : Q;
  tvl_change_24h : Q;
  mcap_tvl_ratio : Q
}.

Definition DEFILLAMA_API : string := "https://api.llama.fi".

Definition protocol_ids : list (string * string) :=
  [ ("pancakeswap", "pancakeswap");
    ("venus", "venus");
    ("alpaca", "alpaca-finance");
    ("biswap", "biswap") ].

(** [http_get url] is the outcome of the GET request and of decoding its
    JSON body.  The [except] branch logs and re-raises unchanged. *)
Definition get_protocol_metrics (http_get : string -> result ProtocolData)
    (protocol : string) : result ProtocolMetrics :=
  match dict_get protocol_ids (lower protocol) with
  | None => Raise ("Unknown protocol: " ++ protocol)
  | Some protocol_id =>
      if String.eqb protocol_id "" then Raise ("Unknown protocol: " ++ protocol)
      else
        data <- http_get (DEFILLAMA_API ++ "/protocol/" ++ protocol_id) ;;
        tvl <- list_item_from_end (tvl_series data) 1 ;;
        previous <- list_item_from_end (tvl_series data) 2 ;;
        latest <- list_item_from_end (tvl_series data) 1 ;;
        let change := _calculate_change previous latest in
        ratio <-
          match mcap data with
          | Some cap =>
              if Qeq_bool cap 0 then Ok 0
              else
                divisor <- list_item_from_end (tvl_series data) 1 ;;
                float_div cap divisor
          | None => Ok 0
          end ;;
        Ok {| metrics_tvl := tvl;
              tvl_change_24h := change;
              mcap_tvl_ratio := ratio |}
  end.

End DataFetcher.

(** ** calculations/price_calculator.py *)

Module PriceCalculator.

Definition WBNB : string := "0xbb4CdB9CBd36B01bD1cBaEBF2De08d9173bc095c".
Definition BUSD : string := "0xe9e7CEA3DedcA5984780Bafc599bD69ADd087D56".
Definition ZERO_ADDRESS : string :=
  "0x0000000000000000000000000000000000000000".

(** The tuple returned by a pair's [getReserves()]. *)
Record Reserves : Type := mkReserves {
  _reserve0 : Z;
  _reserve1 : Z;
  _blockTimestampLast : Z
}.

(** The chain as the calculator reads it: the factory's [getPair], a pair's
    [getReserves] and a token's [decimals] (a [uint8]).  Each call returns
    or raises. *)
Record Chain : Type := mkChain {
  getPair : string -> string -> result string;
  getReserves : string -> result Reserves;
  decimals : string -> result N
}.

(** The body of the [try] block of [_get_token_price_from_pair]. *)
Definition price_from_pair_body (chain : Chain)
    (token0_address token1_address : string) : result (option Q) :=
  pair_address <- getPair chain token0_address token1_address ;;
  if String.eqb pair_address ZERO_ADDRESS then Ok None
  else
    reserves <- getReserves chain pair_address ;;
    decimals0 <- decimals chain token0_address ;;
    decimals1 <- decimals chain token1_address ;;
    reserve0 <-
      decimal_div (inject_Z (_reserve0 reserves))
                  (inject_Z (10 ^ Z.of_N decimals0)) ;;
    reserve1 <-
      decimal_div (inject_Z (_reserve1 reserves))
                  (inject_Z (10 ^ Z.of_N decimals1)) ;;
    if Qeq_bool reserve0 0 || Qeq_bool reserve1 0 then Ok None
    else
      price <- decimal_div reserve1 reserve0 ;;
      Ok (Some price).

(** [except Exception as e: log; return None] *)
Definition _get_token_price_from_pair (chain : Chain)
    (token0_address token1_address : string) : option Q :=
  match price_from_pair_body chain token0_address token1_address with
  | Ok price => price
  | Raise _ => None
  end.

Definition no_price_path (token_address : string) : string :=
  "No valid price path found for token " ++ token_address.

(** The [except] branch of [get_token_price] logs and re-raises the
    exception unchanged. *)
Definition get_token_price (chain : Chain) (token_address : string)
    : result Q :=
  match _get_token_price_from_pair chain token_address BUSD with
  | Some busd_price => Ok busd_price
  | None =>
      match _get_token_price_from_pair chain token_address WBNB with
      | Some bnb_price =>
          match _get_token_price_from_pair chain WBNB BUSD with
          | Some bnb_busd_price => Ok (bnb_price * bnb_busd_price)
          | None => Raise (no_price_path token_address)
          end
      | None => Raise (no_price_path token_address)
      end
  end.

(** The router's [getAmountsOut(amount, path)], awaited. *)
Record Router : Type := mkRouter {
  getAmountsOut : Z -> list string -> result (list Z)
}.

(** The [except] branch logs and re-raises unchanged. *)
Definition calculate_price_impact (router : Router)
    (token_in token_out : string) (amount_in : Z) : result Q :=
  let small_amount := 1000%Z in
  amounts_out_small <-
    getAmountsOut router small_amount [token_in; token_out] ;;
  amounts_out_actual <-
    getAmountsOut router amount_in [token_in; token_out] ;;
  out_small <- list_item amounts_out_small 1 ;;
  price_small <- int_div out_small small_amount ;;
  out_actual <- list_item amounts_out_actual 1 ;;
  price_actual <- int_div out_actual amount_in ;;
  relative <- float_div (Qabs (price_actual - price_small)) price_small ;;
  let price_impact := relative * 100 in
  Ok price_impact.

End PriceCalculator.

(** ** strategies/YieldScanner.py: the scan shells *)

Module YieldScanner.

Section Shells.
(** The dictionary a pool-detail fetch returns. *)
Variable Dict : Type.

(** What the scanner reads of one protocol: the enumeration call
    ([poolLength()], or [getAllMarkets()] for Venus) and, for each pool,
    the outcome of the body of the [try] block of its detail fetch (the
    calls, the price lookups and the calculators run there). *)
Record Farm : Type := mkFarm {
  poolLength : result nat;
  pool_detail : nat -> result Dict
}.

Record Lending : Type := mkLending {
  getAllMarkets : result (list string);
  market_detail : string -> result Dict
}.

(** [try: ... return {...} except Exception as e: log; return None] *)
Definition catch_none (body : result Dict) : option Dict :=
  match body with
  | Ok info => Some info
  | Raise _ => None
  end.

(** [[r for r in results if r is not None]] *)
Fixpoint not_none (results : list (option Dict)) : list Dict :=
  match results with
  | [] => []
  | Some r :: rest => r :: not_none rest
  | None :: rest => not_none rest
  end.

Definition _get_pancake_pool_info (farm : Farm) (pid : nat) : option Dict :=
  catch_none (pool_detail farm pid).

(** [asyncio.gather] returns the results in the order of the tasks. *)
Definition _scan_pancakeswap (farm : Farm) : list Dict :=
  match poolLength farm with
  | Ok pool_length =>
      let tasks := map (_get_pancake_pool_info farm) (seq 0 pool_length) in
      not_none tasks
  | Raise _ => []
  end.

Definition _get_venus_market_info (venus : Lending)
    (market_address : string) : option Dict :=
  catch_none (market_detail venus market_address).

Definition _scan_venus (venus : Lending) : list Dict :=
  match getAllMarkets venus with
  | Ok markets => not_none (map (_get_venus_market_info venus) markets)
  | Raise _ => []
  end.

Definition _get_alpaca_pool_info (farm : Farm) (pid : nat) : option Dict :=
  catch_none (pool_detail farm pid).

Definition _scan_alpaca (farm : Farm) : list Dict :=
  match poolLength farm with
  | Ok pool_length =>
      not_none (map (_get_alpaca_pool_info farm) (seq 0 pool_length))
  | Raise _ => []
  end.

Definition _get_biswap_pool_info (farm : Farm) (pid : nat) : option Dict :=
  catch_none (pool_detail farm pid).

Definition _scan_biswap (farm : Farm) : list Dict :=
  match poolLength farm with
  | Ok pool_length =>
      not_none (map (_get_biswap_pool_info farm) (seq 0 pool_length))
  | Raise _ => []
  end.

(** The four protocols of one scan. *)
Record Protocols : Type := mkProtocols {
  pancakeswap : Farm;
  venus : Lending;
  alpaca : Farm;
  biswap : Farm
}.

(** Modelled from the spec: the orchestrator that runs every protocol's
    scan and collects their opportunities (section 4.5, [scan(adapters)]);
    the source only has the per-protocol scans above and a caller of a
    scanner method that is not defined.  The opportunities are collected
    protocol by protocol, before any ranking. *)
Definition scan (p : Protocols) : list Dict :=
  (_scan_pancakeswap (pancakeswap p) ++ _scan_venus (venus p) ++
   _scan_alpaca (alpaca p) ++ _scan_biswap (biswap p))%list.

End Shells.

Arguments poolLength {Dict} _.
Arguments pool_detail {Dict} _ _.
Arguments getAllMarkets {Dict} _.
Arguments market_detail {Dict} _ _.
Arguments mkFarm {Dict} _ _.
Arguments mkLending {Dict} _ _.
Arguments mkProtocols {Dict} _ _ _ _.
Arguments pancakeswap {Dict} _.
Arguments venus {Dict} _.
Arguments alpaca {Dict} _.
Arguments biswap {Dict} _.
Arguments catch_none {Dict} _.
Arguments not_none {Dict} _.
Arguments _get_pancake_pool_info {Dict} _ _.
Arguments _scan_pancakeswap {Dict} _.
Arguments _get_venus_market_info {Dict} _ _.
Arguments _scan_venus {Dict} _.
Arguments _get_alpaca_pool_info {Dict} _ _.
Arguments _scan_alpaca {Dict} _.
Arguments _get_biswap_pool_info {Dict} _ _.
Arguments _scan_biswap {Dict} _.
Arguments scan {Dict} _.

(** *** The scanner's own risk score *)

Definition _calculate_tvl_risk (tvl : Q) : Q :=
  if Qle_bool 10_000_000 tvl then 0.1
  else if Qle_bool 1_000_000 tvl then 0.3
  else if Qle_bool 100_000 tvl then 0.6
  else 0.9.

Definition protocol_risks : list (string * Q) :=
  [ ("pancakeswap", 0.2);
    ("venus", 0.3);
    ("alpaca", 0.4);
    ("biswap", 0.5) ].

Definition _calculate_protocol_risk (protocol : string) : Q :=
  match dict_get protocol_risks (lower protocol) with
  | Some risk => risk
  | None => 0.9
  end.

Definition _calculate_apr_risk (apr : Q) : Q :=
  if Qle_bool apr 15 then 0.2
  else if Qle_bool apr 50 then 0.4
  else if Qle_bool apr 100 then 0.6
  else if Qle_bool apr 1000 then 0.8
  else 1.0.

Definition _calculate_age_risk (age_in_days : Z) : Q :=
  if (365 <=? age_in_days)%Z then 0.2
  else if (180 <=? age_in_days)%Z then 0.4
  else if (90 <=? age_in_days)%Z then 0.6
  else if (30 <=? age_in_days)%Z then 0.8
  else 1.0.

Definition _calculate_liquidity_risk (tvl : Q) : Q :=
  if Qle_bool 5_000_000 tvl then 0.1
  else if Qle_bool 1_000_000 tvl then 0.3
  else if Qle_bool 500_000 tvl then 0.5
  else if Qle_bool 100_000 tvl then 0.7
  else 0.9.

(** The keys of [pool_info] that the score reads; [None] is a missing key. *)
Record PoolInfoDict : Type := mkPoolInfoDict {
  pool_tvl : option Q;
  pool_protocol : option string;
  pool_apr : option Q;
  pool_address : option string
}.

(** [pool_info[key]] *)
Definition pool_item {V : Type} (value : option V) (key : string)
    : result V :=
  match value with
  | Some v => Ok v
  | None => Raise ("'" ++ key ++ "'")
  end.

(** The attributes of a scanner object that its methods read but the
    class body and [__init__] do not set; [None] is a missing attribute. *)
Record ScannerAttributes : Type := mkScannerAttributes {
  _get_pool_age : option (string -> result Z);
  price_cache : option (list (string * Q))
}.

(** [self.name]: [AttributeError] when the attribute is missing. *)
Definition attribute {V : Type} (value : option V) (name : string)
    : result V :=
  match value with
  | Some v => Ok v
  | None =>
      Raise ("'YieldScanner' object has no attribute '" ++ name ++ "'")
  end.

(** The scanner as the class body and [__init__] leave it. *)
Definition as_written : ScannerAttributes :=
  {| _get_pool_age := None; price_cache := None |}.

Definition risk_weights : list (string * Q) :=
  [ ("tvl", 0.3);
    ("protocol", 0.2);
    ("apr", 0.2);
    ("age", 0.15);
    ("liquidity", 0.15) ].

(** [sum(score * weights[factor] for factor, score in risk_factors.items())] *)
Fixpoint weighted_sum (weights risk_factors : list (string * Q)) (acc : Q)
    : result Q :=
  match risk_factors with
  | [] => Ok acc
  | (factor, score) :: rest =>
      weight <- dict_item weights factor ;;
      weighted_sum weights rest (acc + score * weight)
  end.

(** The body of the [try] block of [_calculate_risk_score]. *)
Definition risk_score_body (self : ScannerAttributes)
    (pool_info : PoolInfoDict) : result Q :=
  tvl <- pool_item (pool_tvl pool_info) "tvl" ;;
  protocol <- pool_item (pool_protocol pool_info) "protocol" ;;
  apr <- pool_item (pool_apr pool_info) "apr" ;;
  get_pool_age <- attribute (_get_pool_age self) "_get_pool_age" ;;
  age <- get_pool_age (match pool_address pool_info with
                       | Some address => address
                       | None => ""
                       end) ;;
  tvl_again <- pool_item (pool_tvl pool_info) "tvl" ;;
  let risk_factors :=
    [ ("tvl", _calculate_tvl_risk tvl);
      ("protocol", _calculate_protocol_risk protocol);
      ("apr", _calculate_apr_risk apr);
      ("age", _calculate_age_risk age);
      ("liquidity", _calculate_liquidity_risk tvl_again) ] in
  risk_score <- weighted_sum risk_weights risk_factors 0 ;;
  Ok (Qmin (Qmax risk_score 0) 1).

(** [except Exception as e: log; return 1] *)
Definition _calculate_risk_score (self : ScannerAttributes)
    (pool_info : PoolInfoDict) : Q :=
  match risk_score_body self pool_info with
  | Ok risk_score => risk_score
  | Raise _ => 1
  end.

Definition _calculate_utilization_rate (total_borrows total_supply : Z) : Q :=
  if (total_supply =? 0)%Z then 0
  else inject_Z total_borrows / inject_Z total_supply * 100.

(** *** The scanner's own price lookup *)

Definition ADDRESSES : list (string * string) :=
  [ ("PANCAKESWAP_ROUTER", "0x10ED43C718714eb63d5aA57B78B54704E256024E");
    ("PANCAKESWAP_FACTORY", "0xcA143Ce32Fe78f1f7019d7d551a6402fC5350c73");
    ("PANCAKESWAP_MASTERCHEF", "0x73feaa1eE314F8c655E354234017bE2193C9E24E");
    ("VENUS_COMPTROLLER", "0xfD36E2c2a6789Db23113685031d7F16329158384");
    ("ALPACA_FAIRLAUNCH", "0xA625AB01B08ce023B2a342Dbb12a16f2C8489A8F");
    ("BISWAP_MASTERCHEF", "0xDbc1A13490deeF9c3C12b44FE77b503c1B061739");
    ("BUSD", "0xe9e7CEA3DedcA5984780Bafc599bD69ADd087D56");
    ("WBNB", "0xbb4CdB9CBd36B01bD1cBaEBF2De08d9173bc095c");
    ("CAKE", "0x0E09FaBB73Bd3Ade0a17ECC321fD13a19e81cE82");
    ("BSW", "0xYourBswTokenAddressHere") ].

Definition NO_PAIR : string := "0x0000000000000000000000000000000000000000".

(** The chain as the scanner's price lookup reads it: the factory's
    [getPair], and a pair's [getReserves] and [token0]. *)
Record PairChain : Type := mkPairChain {
  factory_getPair : string -> string -> result string;
  pair_getReserves : string -> result PriceCalculator.Reserves;
  pair_token0 : string -> result string
}.

(** The price of [token_address] read off one pair: the reserve of the
    other token over the reserve of [token_address]. *)
Definition pair_ratio (chain : PairChain) (pair token_address : string)
    : result Q :=
  reserves <- pair_getReserves chain pair ;;
  token0 <- pair_token0 chain pair ;;
  if String.eqb (lower token_address) (lower token0)
  then int_div (PriceCalculator._reserve1 reserves)
               (PriceCalculator._reserve0 reserves)
  else int_div (PriceCalculator._reserve0 reserves)
               (PriceCalculator._reserve1 reserves).

(** [get_token_price] on a scanner that has a [price_cache]: the returned
    value and the cache afterwards.  [depth] is the room left on the call
    stack: a call with none left raises [RecursionError], which the
    caller's [except] turns into 0 like any other exception. *)
Fixpoint get_token_price_cached (depth : nat) (chain : PairChain)
    (cache : list (string * Q)) (token_address : string)
    : result Q * list (string * Q) :=
  match depth with
  | O => (Raise "maximum recursion depth exceeded", cache)
  | S depth' =>
      match dict_get cache token_address with
      | Some price => (Ok price, cache)
      | None =>
          let '(body, cache') :=
            match (busd <- dict_item ADDRESSES "BUSD" ;;
                   if String.eqb (lower token_address) (lower busd)
                   then Ok None
                   else
                     pair_address <-
                       factory_getPair chain token_address busd ;;
                     Ok (Some pair_address)) with
            | Raise msg => (Raise msg, cache)
            | Ok None => (Ok 1.0, cache)
            | Ok (Some pair_address) =>
                if String.eqb pair_address NO_PAIR then
                  match (wbnb <- dict_item ADDRESSES "WBNB" ;;
                         factory_getPair chain token_address wbnb) with
                  | Raise msg => (Raise msg, cache)
                  | Ok wbnb_pair =>
                      if String.eqb wbnb_pair NO_PAIR then (Ok 0, cache)
                      else
                        match dict_item ADDRESSES "WBNB" with
                        | Raise msg => (Raise msg, cache)
                        | Ok wbnb =>
                            let '(wbnb_price, cache1) :=
                              get_token_price_cached depth' chain cache wbnb in
                            match (wbnb_price <- wbnb_price ;;
                                   ratio <-
                                     pair_ratio chain wbnb_pair token_address ;;
                                   Ok (ratio * wbnb_price)) with
                            | Ok price =>
                                (Ok price, (token_address, price) :: cache1)
                            | Raise msg => (Raise msg, cache1)
                            end
                        end
                  end
                else
                  match pair_ratio chain pair_address token_address with
                  | Ok price => (Ok price, (token_address, price) :: cache)
                  | Raise msg => (Raise msg, cache)
                  end
            end in
          match body with
          | Ok price => (Ok price, cache')
          | Raise _ => (Ok 0, cache')
          end
      end
  end.

(** [YieldScanner.get_token_price]: the cache is read before the [try]
    block is entered. *)
Definition get_token_price (depth : nat) (self : ScannerAttributes)
    (chain : PairChain) (token_address : string)
    : result (Q * list (string * Q)) :=
  cache <- attribute (price_cache self) "price_cache" ;;
  let '(outcome, cache') :=
    get_token_price_cached depth chain cache token_address in
  price <- outcome ;;
  Ok (price, cache').

(** *** The constructor *)

(** What [__init__] needs of its surroundings: the three Web3 objects, the
    ABI files ([open] and [json.load]) and the contract factory
    [w3.eth.contract]. *)
Record InitEnv : Type := mkInitEnv {
  new_web3 : result unit;
  inject_middleware : result unit;
  new_async_web3 : result unit;
  read_abi : string -> result string;
  new_contract : string -> string -> result (string * string)
}.

(** [_load_abi] as the class ends up defining it (the second [def] of that
    name replaces the first), called from [__init__]: [self.logger] is
    assigned only after the ABIs and the contracts, so the [except] branch
    raises [AttributeError] instead of logging. *)
Definition _load_abi (env : InitEnv) (filename : string) : result string :=
  match read_abi env ("abis/" ++ filename) with
  | Ok abi => Ok abi
  | Raise _ => Raise "'YieldScanner' object has no attribute 'logger'"
  end.

Definition ABI_FILES : list (string * string) :=
  [ ("PAIR", "pair_abi.json");
    ("FARM", "farm_abi.json");
    ("ERC20", "erc20_abi.json");
    ("FACTORY", "factory_abi.json");
    ("VENUS_COMPTROLLER", "venus_comptroller_abi.json");
    ("VENUS_MARKET", "venus_market_abi.json");
    ("ALPACA_FAIRLAUNCH", "alpaca_fairlaunch_abi.json");
    ("ALPACA_VAULT", "alpaca_vault_abi.json");
    ("BISWAP_MASTERCHEF", "biswap_masterchef_abi.json") ].

(** The dict literal [self.ABIS = {...}], entry by entry. *)
Fixpoint load_abis (env : InitEnv) (files : list (string * string))
    : result (list (string * string)) :=
  match files with
  | [] => Ok []
  | (key, filename) :: rest =>
      abi <- _load_abi env filename ;;
      more <- load_abis env rest ;;
      Ok ((key, abi) :: more)
  end.

(** The contracts of [_init_contracts]: name, address key, ABI key. *)
Definition CONTRACTS : list (string * (string * string)) :=
  [ ("pancake_factory", ("PANCAKESWAP_FACTORY", "FACTORY"));
    ("pancake_router", ("PANCAKESWAP_ROUTER", "ROUTER"));
    ("pancake_masterchef", ("PANCAKESWAP_MASTERCHEF", "FARM"));
    ("venus_comptroller", ("VENUS_COMPTROLLER", "VENUS_COMPTROLLER"));
    ("alpaca_fairlaunch", ("ALPACA_FAIRLAUNCH", "ALPACA_FAIRLAUNCH"));
    ("biswap_masterchef", ("BISWAP_MASTERCHEF", "BISWAP_MASTERCHEF")) ].

(** The dict literal of [_init_contracts], entry by entry:
    [w3.eth.contract(address=ADDRESSES[..], abi=ABIS[..])]. *)
Fixpoint init_contracts (env : InitEnv) (abis : list (string * string))
    (entries : list (string * (string * string)))
    : result (list (string * (string * string))) :=
  match entries with
  | [] => Ok []
  | (name, (address_key, abi_key)) :: rest =>
      address <- dict_item ADDRESSES address_key ;;
      abi <- dict_item abis abi_key ;;
      contract <- new_contract env address abi ;;
      more <- init_contracts env abis rest ;;
      Ok ((name, contract) :: more)
  end.

Definition _init_contracts (env : InitEnv) (abis : list (string * string))
    : result (list (string * (string * string))) :=
  init_contracts env abis CONTRACTS.

(** [YieldScanner.__init__], up to the objects it builds from the chain:
    the ABIs, the contracts and the two contracts handed to the
    [PriceCalculator]. *)
Definition __init__ (env : InitEnv)
    : result (list (string * string) * list (string * (string * string))) :=
  _ <- new_web3 env ;;
  _ <- inject_middleware env ;;
  _ <- new_async_web3 env ;;
  abis <- load_abis env ABI_FILES ;;
  contracts <- _init_contracts env abis ;;
  _ <- dict_item contracts "pancake_factory" ;;
  _ <- dict_item contracts "pancake_router" ;;
  Ok (abis, contracts).

End YieldScanner.

(** ** defitrader.py *)

Module Defitrader.

(** The keys of an opportunity that the trading agent reads. *)
Record Opportunity : Type := mkOpportunity {
  address : string;
  expected_roi : Q;
  risk_score : Q;
  tvl : Q;
  protocol_score : Q;
  liquidity_score : Q
}.

(** [a < b] on numbers. *)
Definition Qlt_bool (a b : Q) : bool := negb (Qle_bool b a).

(** [sorted(xs, key=lambda x: x['expected_roi'], reverse=True)].
    Python's sort is stable, and stays so under [reverse=True]: elements
    with equal keys keep the order they came in.  The stable descending
    arrangement of a list is unique, so it is written here as an insertion
    from the right that stops before the first element whose key is not
    greater. *)
Fixpoint insert_desc (x : Opportunity) (l : list Opportunity)
    : list Opportunity :=
  match l with
  | [] => [x]
  | y :: rest =>
      if Qlt_bool (expected_roi x) (expected_roi y)
      then y :: insert_desc x rest
      else x :: y :: rest
  end.

Definition sorted_by_expected_roi_desc (l : list Opportunity)
    : list Opportunity :=
  fold_right insert_desc [] l.

(** The body of the loop of [_filter_opportunities]: [true] when the
    opportunity is appended, [false] when a [continue] is taken. *)
Definition passes_filter (opp : Opportunity) : bool :=
  if Qlt_bool (expected_roi opp) 0.15 then false
  else if Qlt_bool 0.65 (risk_score opp) then false
  else if Qlt_bool (tvl opp) 500000 then false
  else if Qlt_bool (protocol_score opp) 0.75 then false
  else if Qlt_bool (liquidity_score opp) 0.6 then false
  else true.

Definition _filter_opportunities (opportunities : list Opportunity)
    : list Opportunity :=
  filter passes_filter opportunities.

(** [YieldStrategy.scan_opportunities]; [formatted] is the outcome of the
    call [self.yield_scanner.format_for_trading_agent()].  Any exception is
    logged and turned into the empty list. *)
Definition scan_opportunities (formatted : result (list Opportunity))
    : list Opportunity :=
  match formatted with
  | Ok opportunities =>
      let filtered_opportunities := _filter_opportunities opportunities in
      sorted_by_expected_roi_desc filtered_opportunities
  | Raise _ => []
  end.

(** The loop of [scan_all_opportunities] over [self.strategies]: each
    strategy's scan returns a list or raises, and nothing is caught. *)
Fixpoint extend_all (strategies : list (result (list Opportunity)))
    : result (list Opportunity) :=
  match strategies with
  | [] => Ok []
  | scan :: rest =>
      opportunities <- scan ;;
      more <- extend_all rest ;;
      Ok (opportunities ++ more)%list
  end.

(** [EnhancedTradingAgent.scan_all_opportunities] *)
Definition scan_all_opportunities
    (strategies : list (result (list Opportunity)))
    : result (list Opportunity) :=
  all_opportunities <- extend_all strategies ;;
  Ok (sorted_by_expected_roi_desc all_opportunities).

End Defitrader.

(** * Specification-side definitions and concrete inputs *)

Section Inputs.
Import APRCalculator PriceCalculator YieldScanner Defitrader.

Definition empty_farm : MasterChef :=
  {| cakePerBlock := Ok 40000000000000000000%Z;
     bswPerBlock := Ok 30000000000000000000%Z;
     totalAllocPoint := Ok 0%Z |}.

Definition idle_fairlaunch : FairLaunch :=
  {| poolInfo := fun _ => Ok (mkPoolInfo "0x7C9e" 300%Z);
     fl_totalAllocPoint := Ok 5000%Z;
     alpacaPerBlock := Ok 20000000000000000000%Z |}.

(** A vault holding 100 tokens (18 decimals) of which 25 are lent out. *)
Definition quarter_lent_vault : AlpacaVault :=
  {| totalToken := Ok 100000000000000000000%Z;
     vaultDebtVal := Ok 25000000000000000000%Z |}.

(** The per-block rate after the 1e18 normalisation. *)
Definition rate_per_block (raw : Z) : Q := inject_Z raw / PRECISION.

(** [100 * ((1 + r)^blocksPerYear - 1)] *)
Definition compounded_percent (r : Q) : Q :=
  100 * ((1 + r) ^ 10512000 - 1).

(** [100 * r * blocksPerYear] *)
Definition simple_percent (r : Q) : Q := 100 * (r * 10512000).

(** A market with a supply rate of 1e-9 and a borrow rate of 2e-9 per
    block. *)
Definition sample_market : VenusMarket :=
  {| supplyRatePerBlock := Ok 1000000000%Z;
     borrowRatePerBlock := Ok 2000000000%Z |}.

Definition WBNB_BUSD_PAIR : string :=
  "0x58F876857a02D6762E0101bb5C46A8c1ED44Dc16".

(** A chain with the one pair WBNB/BUSD, holding 1 WBNB ([reserve0]) and
    300 BUSD ([reserve1]); both tokens have 18 decimals. *)
Definition wbnb_busd_chain : Chain :=
  {| getPair := fun a b =>
       if (String.eqb a WBNB && String.eqb b BUSD)
          || (String.eqb a BUSD && String.eqb b WBNB)
       then Ok WBNB_BUSD_PAIR
       else Ok ZERO_ADDRESS;
     getReserves := fun pair =>
       if String.eqb pair WBNB_BUSD_PAIR
       then Ok (mkReserves 1000000000000000000 300000000000000000000
                           1700000000)
       else Raise "execution reverted";
     decimals := fun _ => Ok 18%N |}.

(** The factory has no pair for the two tokens. *)
Definition pair_missing (chain : Chain) (a b : string) : Prop :=
  getPair chain a b = Ok ZERO_ADDRESS.

Definition CAKE : string := "0x0E09FaBB73Bd3Ade0a17ECC321fD13a19e81cE82".

(** A factory that knows no pair at all. *)
Definition pairless_chain : Chain :=
  {| getPair := fun _ _ => Ok ZERO_ADDRESS;
     getReserves := fun _ => Raise "execution reverted";
     decimals := fun _ => Ok 18%N |}.

(** A scan in which the PancakeSwap enumeration fails, one of three Venus
    markets fails, and Alpaca has two pools; a dictionary is stood for by
    its address. *)
Definition sample_protocols : Protocols string :=
  {| pancakeswap :=
       {| poolLength := Raise "HTTPError: 503";
          pool_detail := fun _ => Raise "unreachable" |};
     venus :=
       {| getAllMarkets := Ok ["vBNB"; "vBUSD"; "vCAKE"];
          market_detail := fun market =>
            if String.eqb market "vBUSD"
            then Raise "execution reverted"
            else Ok market |};
     alpaca :=
       {| poolLength := Ok 2%nat;
          pool_detail := fun pid =>
            if Nat.eqb pid 0 then Ok "ibBNB" else Ok "ibBUSD" |};
     biswap :=
       {| poolLength := Ok 0%nat;
          pool_detail := fun _ => Raise "unreachable" |} |}.

(** The order the ranking is documented to have: descending
    [expected_roi], ties by ascending [risk_score], then by [address]. *)
Definition ranked_before (a b : Opportunity) : Prop :=
  expected_roi b < expected_roi a \/
  (expected_roi a == expected_roi b /\
   (risk_score a < risk_score b \/
    (risk_score a == risk_score b /\
     String.leb (address a) (address b) = true))).

(** The order the ranking has: descending [expected_roi] only. *)
Definition roi_desc (a b : Opportunity) : Prop :=
  expected_roi b <= expected_roi a.

(** The opportunities whose [expected_roi] is [k]. *)
Definition with_roi (k : Q) (l : list Opportunity) : list Opportunity :=
  filter (fun opp => Qeq_bool (expected_roi opp) k) l.

Definition farm_a : Opportunity :=
  {| address := "0x0eD7e52944161450477ee417DE9Cd3a859b14fD0";
     expected_roi := 0.2; risk_score := 0.6; tvl := 2_000_000;
     protocol_score := 0.9; liquidity_score := 0.8 |}.

Definition farm_b : Opportunity :=
  {| address := "0x58F876857a02D6762E0101bb5C46A8c1ED44Dc16";
     expected_roi := 0.2; risk_score := 0.1; tvl := 8_000_000;
     protocol_score := 0.9; liquidity_score := 0.9 |}.

(** The emission-weighted rate in percent: the yearly emission
    ([emission] per block, in 1e-18 units of the reward token) weighted by
    the pool's share of the allocation points, valued at [price], over the
    pool's TVL. *)
Definition emission_rate_percent (emission total alloc : Z) (price tvl : Q)
    : Q :=
  100 * (inject_Z emission * 10512000 * (inject_Z alloc / inject_Z total)
         * (price / 1000000000000000000)) / tvl.

(** A farm emitting 40 CAKE per block, a tenth of it to the pool. *)
Definition cake_farm : MasterChef :=
  {| cakePerBlock := Ok 40000000000000000000%Z;
     bswPerBlock := Ok 30000000000000000000%Z;
     totalAllocPoint := Ok 1000%Z |}.

(** A DefiLlama answering every request with three TVL samples and a market
    capitalisation. *)
Definition llama_three_samples : string -> result DataFetcher.ProtocolData :=
  fun _ => Ok (DataFetcher.mkProtocolData [1900000000; 2000000000; 2100000000]
                 (Some 700000000)).

(** A DefiLlama that has a single TVL sample. *)
Definition llama_one_sample : string -> result DataFetcher.ProtocolData :=
  fun _ => Ok (DataFetcher.mkProtocolData [2100000000] None).

(** Every pair the chain reports has non-negative reserves (they are
    [uint112] values). *)
Definition reserves_nonneg (chain : Chain) : Prop :=
  forall pair res,
    getReserves chain pair = Ok res ->
    (0 <= _reserve0 res)%Z /\ (0 <= _reserve1 res)%Z.

(** Every amount the router quotes is non-negative (they are [uint256]
    values). *)
Definition quotes_nonneg (router : Router) : Prop :=
  forall amount path amounts,
    getAmountsOut router amount path = Ok amounts ->
    Forall (fun out => (0 <= out)%Z) amounts.

(** A router quoting 299 for 1 at every size. *)
Definition flat_router : Router :=
  {| getAmountsOut := fun amount _ =>
       if (amount <? 0)%Z then Raise "execution reverted"
       else Ok [amount; (amount * 299)%Z] |}.

(** The configured base score of a protocol, 0.5 for an unknown one. *)
Definition base_score_of (protocol : string) : Q :=
  match dict_get RiskCalculator.PROTOCOL_BASE_SCORES (lower protocol) with
  | Some score => score
  | None => 0.5
  end.

(** The TVL growth over a history: last sample over first, minus 1. *)
Definition tvl_growth_of (tvl_history : list Q) : Q :=
  if (1 <? List.length tvl_history)%nat
  then last tvl_history 0 / hd 0 tvl_history - 1
  else 0.

(** The history lets the growth be computed: it has at most one sample, or
    its first sample is not 0. *)
Definition growth_defined (tvl_history : list Q) : Prop :=
  (List.length tvl_history <= 1)%nat \/ ~ hd 0 tvl_history == 0.

(** A factory that knows no pair at all, as the scanner reads it. *)
Definition pairless_pair_chain : PairChain :=
  {| factory_getPair := fun _ _ => Ok NO_PAIR;
     pair_getReserves := fun _ => Raise "execution reverted";
     pair_token0 := fun _ => Raise "execution reverted" |}.

(** The chain with the one pair WBNB/BUSD (1 WBNB, 300 BUSD), as the
    scanner reads it. *)
Definition wbnb_busd_pair_chain : PairChain :=
  {| factory_getPair := fun a b =>
       if (String.eqb a WBNB && String.eqb b BUSD)
          || (String.eqb a BUSD && String.eqb b WBNB)
       then Ok WBNB_BUSD_PAIR
       else Ok NO_PAIR;
     pair_getReserves := fun pair =>
       if String.eqb pair WBNB_BUSD_PAIR
       then Ok (mkReserves 1000000000000000000 300000000000000000000
                           1700000000)
       else Raise "execution reverted";
     pair_token0 := fun pair =>
       if String.eqb pair WBNB_BUSD_PAIR then Ok WBNB
       else Raise "execution reverted" |}.

(** Surroundings in which nothing fails: the node answers, every ABI file
    is there and every contract object can be built. *)
Definition ideal_environment : InitEnv :=
  {| new_web3 := Ok tt;
     inject_middleware := Ok tt;
     new_async_web3 := Ok tt;
     read_abi := fun _ => Ok "[]";
     new_contract := fun address abi => Ok (address, abi) |}.

(** A scanner object that has been given a pool-age method and an empty
    price cache. *)
Definition scanner_with_age : ScannerAttributes :=
  {| _get_pool_age := Some (fun _ => Ok 400%Z);
     price_cache := Some [] |}.

Definition cake_bnb_pool : PoolInfoDict :=
  {| pool_tvl := Some 2_000_000;
     pool_protocol := Some "PancakeSwap";
     pool_apr := Some 42;
     pool_address := Some "0x0eD7e52944161450477ee417DE9Cd3a859b14fD0" |}.

Definition farm_c : Opportunity :=
  {| address := "0x7EFaEf62fDdCCa950418312c6C91Aef321375A00";
     expected_roi := 0.5; risk_score := 0.4; tvl := 1_000_000;
     protocol_score := 0.8; liquidity_score := 0.7 |}.

End Inputs.

Section VolatilitySpec.
Local Open Scope R_scope.

(** The daily returns as the documentation describes them:
    [(p[i+1] - p[i]) / p[i]] for every day but the last. *)
Definition daily_returns_spec (prices : list R) : list R :=
  map (fun i => (nth (S i) prices 0 - nth i prices 0) / nth i prices 0)
      (seq 0 (List.length prices - 1)).

(** The population standard deviation. *)
Definition stdev (xs : list R) : R :=
  let n := INR (List.length xs) in
  let mean := fold_right Rplus 0 xs / n in
  sqrt (fold_right Rplus 0 (map (fun x => (x - mean) * (x - mean)) xs) / n).

End VolatilitySpec.

(** * Properties *)

Section TvlRisk.
Import RiskCalculator.

Lemma first_threshold_hit (th risk : Q) (rest : list (Q * Q)) (x : Q) :
  th <= x -> first_threshold ((th, risk) :: rest) x = Some risk.
Proof.
  intros H. simpl. apply Qle_bool_iff in H. now rewrite H.
Qed.

Lemma first_threshold_miss (th risk : Q) (rest : list (Q * Q)) (x : Q) :
  x < th -> first_threshold ((th, risk) :: rest) x = first_threshold rest x.
Proof.
  intros H. simpl. destruct (Qle_bool th x) eqn:E; [|reflexivity].
  apply Qle_bool_iff in E. exfalso. apply (Qlt_not_le _ _ H E).
Qed.

End TvlRisk.

Section TvlRiskSteps.
Import RiskCalculator.

(** C8. The TVL-risk step function is boundary-inclusive on its documented
    thresholds: it returns 0.1 at 10_000_001 and at 10_000_000, 0.3 at
    9_999_999 and 0.9 at 0; and for every TVL >= 0 it returns the risk
    value of the highest threshold the TVL meets or exceeds
    (10M -> 0.1, 5M -> 0.3, 1M -> 0.5, 500K -> 0.7, otherwise 0.9). *)
Theorem calculate_tvl_risk_thresholds :
  (calculate_tvl_risk 10_000_001 = 0.1 /\
   calculate_tvl_risk 10_000_000 = 0.1 /\
   calculate_tvl_risk 9_999_999 = 0.3 /\
   calculate_tvl_risk 0 = 0.9) /\
  (forall tvl : Q, 0 <= tvl ->
     (10_000_000 <= tvl -> calculate_tvl_risk tvl = 0.1) /\
     (5_000_000 <= tvl -> tvl < 10_000_000 ->
      calculate_tvl_risk tvl = 0.3) /\
     (1_000_000 <= tvl -> tvl < 5_000_000 ->
      calculate_tvl_risk tvl = 0.5) /\
     (500_000 <= tvl -> tvl < 1_000_000 ->
      calculate_tvl_risk tvl = 0.7) /\
     (tvl < 500_000 -> calculate_tvl_risk tvl = 0.9)).
Proof.
  split.
  - repeat split; reflexivity.
  - intros tvl Hpos. unfold calculate_tvl_risk, TVL_THRESHOLDS.
    repeat split.
    + intros H. now rewrite first_threshold_hit.
    + intros H5 H10.
      rewrite first_threshold_miss by assumption.
      now rewrite first_threshold_hit.
    + intros H1 H5.
      rewrite first_threshold_miss by lra.
      rewrite first_threshold_miss by assumption.
      now rewrite first_threshold_hit.
    + intros H500 H1.
      rewrite first_threshold_miss by lra.
      rewrite first_threshold_miss by lra.
      rewrite first_threshold_miss by assumption.
      now rewrite first_threshold_hit.
    + intros H500.
      rewrite first_threshold_miss by lra.
      rewrite first_threshold_miss by lra.
      rewrite first_threshold_miss by lra.
      rewrite first_threshold_miss by assumption.
      now rewrite first_threshold_hit.
Qed.

Lemma calculate_tvl_risk_thresholds_witness :
  0 <= 750_000 /\ 500_000 <= 750_000 /\ 750_000 < 1_000_000 /\
  calculate_tvl_risk 750_000 = 0.7.
Proof.
  assert (H0 : 0 <= 750_000) by (vm_compute; discriminate).
  assert (H1 : 500_000 <= 750_000) by (vm_compute; discriminate).
  assert (H2 : 750_000 < 1_000_000) by reflexivity.
  split; [exact H0 | split; [exact H1 | split; [exact H2 | ]]].
  exact (proj1 (proj2 (proj2 (proj2
           (proj2 calculate_tvl_risk_thresholds 750_000 H0)))) H1 H2).
Defined.

End TvlRiskSteps.

Section CompositeRisk.
Import RiskCalculator.

Lemma clamp_unit_bounds (x : Q) : 0 <= Qmin 1.0 (Qmax 0.0 x) <= 1.
Proof.
  generalize (Q.max_spec 0.0 x) (Q.min_spec 1.0 (Qmax 0.0 x)).
  generalize (Qmin 1.0 (Qmax 0.0 x)) (Qmax 0.0 x).
  intros lo hi [[H0 Hmax] | [H0 Hmax]] [[H1 Hmin] | [H1 Hmin]]; lra.
Qed.

Lemma clamp_unit_id (x : Q) : 0 <= x <= 1 -> Qmin 1.0 (Qmax 0.0 x) == x.
Proof.
  intros [Hx0 Hx1].
  generalize (Q.max_spec 0.0 x) (Q.min_spec 1.0 (Qmax 0.0 x)).
  generalize (Qmin 1.0 (Qmax 0.0 x)) (Qmax 0.0 x).
  intros lo hi [[H0 Hmax] | [H0 Hmax]] [[H1 Hmin] | [H1 Hmin]]; lra.
Qed.

(** C4. For sub-scores and a protocol score in [0,1] the composite risk
    score is 0.25*tvl + 0.20*volatility + 0.15*age + 0.20*il +
    0.20*(1 - protocol), with the protocol factor inverted; and whatever
    the weight table (and whatever the inputs) the returned score is
    clamped into [0,1]. *)
Theorem composite_risk_score_weighted_and_clamped :
  (forall (weights : RiskWeights)
          (tvl_score volatility_score age_score il_risk protocol_score : Q),
     0 <= calculate_composite_risk_score_with weights
            tvl_score volatility_score age_score il_risk protocol_score
       <= 1) /\
  (forall tvl_score volatility_score age_score il_risk protocol_score : Q,
     0 <= tvl_score <= 1 ->
     0 <= volatility_score <= 1 ->
     0 <= age_score <= 1 ->
     0 <= il_risk <= 1 ->
     0 <= protocol_score <= 1 ->
     calculate_composite_risk_score
       tvl_score volatility_score age_score il_risk protocol_score
     == 0.25 * tvl_score + 0.20 * volatility_score + 0.15 * age_score
        + 0.20 * il_risk + 0.20 * (1 - protocol_score)).
Proof.
  split.
  - intros. unfold calculate_composite_risk_score_with.
    apply clamp_unit_bounds.
  - intros t v a i p Ht Hv Ha Hi Hp.
    unfold calculate_composite_risk_score,
      calculate_composite_risk_score_with, RISK_WEIGHTS.
    cbn [w_tvl w_volatility w_age w_il w_protocol].
    rewrite clamp_unit_id; lra.
Qed.

Lemma composite_risk_score_weighted_and_clamped_witness :
  calculate_composite_risk_score 0.1 0.5 0.2 1 0.9
  == 0.25 * 0.1 + 0.20 * 0.5 + 0.15 * 0.2 + 0.20 * 1 + 0.20 * (1 - 0.9).
Proof.
  apply (proj2 composite_risk_score_weighted_and_clamped);
    split; vm_compute; discriminate.
Defined.

End CompositeRisk.

Section EmissionRates.
Import APRCalculator.

Lemma decimal_div_ok (a b : Q) : ~ b == 0 -> decimal_div a b = Ok (a / b).
Proof.
  intros Hb. unfold decimal_div.
  destruct (Qeq_bool b 0) eqn:E; [|reflexivity].
  apply Qeq_bool_eq in E. contradiction.
Qed.

Lemma zero_guard (total : Z) (tvl : Q) :
  total = 0%Z \/ tvl == 0 ->
  Qeq_bool (inject_Z total) 0 || Qeq_bool tvl 0 = true.
Proof.
  intros [-> | H].
  - reflexivity.
  - apply Qeq_eq_bool in H. rewrite H. apply orb_true_r.
Qed.

(** C2. When the total allocation weight is 0 or the pool TVL is 0, the
    three emission-weighted rate computations return exactly 0 (they do
    not raise a division fault): PancakeSwap APR, Biswap APR and the Alpaca
    reward APY. *)
Theorem emission_rates_zero_guard :
  (forall pid pool_info masterchef cake_price pool_tvl cake total,
     cakePerBlock masterchef = Ok cake ->
     totalAllocPoint masterchef = Ok total ->
     total = 0%Z \/ pool_tvl == 0 ->
     calculate_pancake_apr pid pool_info masterchef cake_price pool_tvl
     = Ok 0) /\
  (forall pid pool_info masterchef bsw_price pool_tvl bsw total,
     bswPerBlock masterchef = Ok bsw ->
     totalAllocPoint masterchef = Ok total ->
     total = 0%Z \/ pool_tvl == 0 ->
     calculate_biswap_apr pid pool_info masterchef bsw_price pool_tvl
     = Ok 0) /\
  (forall pid fairlaunch tvl alpaca_price pool_info total emission,
     poolInfo fairlaunch pid = Ok pool_info ->
     fl_totalAllocPoint fairlaunch = Ok total ->
     alpacaPerBlock fairlaunch = Ok emission ->
     total = 0%Z \/ tvl == 0 ->
     calculate_alpaca_reward_apy pid fairlaunch tvl alpaca_price = Ok 0).
Proof.
  repeat split.
  - intros pid pool_info masterchef cake_price pool_tvl cake total Hc Ht Hz.
    unfold calculate_pancake_apr. rewrite Hc, Ht. cbn [bind].
    now rewrite (zero_guard _ _ Hz).
  - intros pid pool_info masterchef bsw_price pool_tvl bsw total Hc Ht Hz.
    unfold calculate_biswap_apr. rewrite Hc, Ht. cbn [bind].
    now rewrite (zero_guard _ _ Hz).
  - intros pid fairlaunch tvl alpaca_price pool_info total emission
      Hp Ht He Hz.
    unfold calculate_alpaca_reward_apy. rewrite Hp, Ht, He. cbn [bind].
    now rewrite (zero_guard _ _ Hz).
Qed.

Lemma emission_rates_zero_guard_witness :
  calculate_pancake_apr 3 (mkPoolInfo "0x0eD7" 100%Z) empty_farm 2.5 1000
    = Ok 0 /\
  calculate_biswap_apr 3 (mkPoolInfo "0x0eD7" 100%Z) empty_farm 0.3 1000
    = Ok 0 /\
  calculate_alpaca_reward_apy 1 idle_fairlaunch 0 0.2 = Ok 0.
Proof.
  destruct emission_rates_zero_guard as [Hcake [Hbsw Halpaca]].
  split; [|split].
  - apply (Hcake 3%nat (mkPoolInfo "0x0eD7" 100%Z) empty_farm 2.5 1000
             40000000000000000000%Z 0%Z);
      [reflexivity | reflexivity | left; reflexivity].
  - apply (Hbsw 3%nat (mkPoolInfo "0x0eD7" 100%Z) empty_farm 0.3 1000
             30000000000000000000%Z 0%Z);
      [reflexivity | reflexivity | left; reflexivity].
  - apply (Halpaca 1%nat idle_fairlaunch 0 0.2 (mkPoolInfo "0x7C9e" 300%Z)
             5000%Z 20000000000000000000%Z);
      [reflexivity | reflexivity | reflexivity | right; reflexivity].
Defined.

End EmissionRates.

Section VaultBaseYield.
Import APRCalculator.

(** What the vault base yield computes for a vault holding tokens: the
    utilisation [total_debt / total_token] times 15 (percent). *)
Lemma calculate_alpaca_base_apy_value (vault : AlpacaVault) (token debt : Z) :
  totalToken vault = Ok token ->
  vaultDebtVal vault = Ok debt ->
  token <> 0%Z ->
  exists apy,
    calculate_alpaca_base_apy vault = Ok apy /\
    apy == inject_Z debt / inject_Z token * 15.
Proof.
  intros Ht Hd Hnz. unfold calculate_alpaca_base_apy.
  rewrite Ht, Hd. cbn [bind].
  assert (Hq : ~ inject_Z token == 0).
  { intros H. apply Hnz. unfold Qeq in H. simpl in H. lia. }
  destruct (Qeq_bool (inject_Z token) 0) eqn:E.
  - apply Qeq_bool_eq in E. contradiction.
  - rewrite (decimal_div_ok _ _ Hq). cbn [bind reraise].
    eexists. split; [reflexivity|]. field. exact Hq.
Qed.

Lemma calculate_alpaca_base_apy_empty (vault : AlpacaVault) (debt : Z) :
  totalToken vault = Ok 0%Z ->
  vaultDebtVal vault = Ok debt ->
  calculate_alpaca_base_apy vault = Ok 0.
Proof.
  intros Ht Hd. unfold calculate_alpaca_base_apy. now rewrite Ht, Hd.
Qed.

(** C6. At a vault with totalDeposited = 100e18 and totalDebt = 25e18 the
    base yield returned is 25/100 * 15 = 3.75 percent, and not
    (100 - 25)/100 * 15 = 11.25 percent, the value of
    (totalDeposited - totalDebt) / totalDeposited times the 15% maximum
    lending rate. *)
Theorem calculate_alpaca_base_apy_quarter_lent :
  exists apy,
    calculate_alpaca_base_apy quarter_lent_vault = Ok apy /\
    apy == 3.75 /\
    ~ apy == (100 - 25) / 100 * 0.15 * 100.
Proof.
  eexists. split; [reflexivity|]. split.
  - reflexivity.
  - intros H. vm_compute in H. discriminate H.
Qed.

End VaultBaseYield.

Section LendingRates.
Import APRCalculator.

Lemma Qpower_succ_pos (a : Q) (p : positive) :
  a ^ Zpos (Pos.succ p) == a ^ Zpos p * a.
Proof.
  rewrite Pos2Z.inj_succ. unfold Z.succ.
  destruct (Qeq_dec a 0) as [Ha | Ha].
  - rewrite Ha. rewrite !Qpower_0 by lia. ring.
  - rewrite Qpower_plus by exact Ha. now rewrite Qpower_1_r.
Qed.

(** Bernoulli's inequality. *)
Lemma bernoulli (x : Q) (p : positive) :
  0 <= x -> 1 + inject_Z (Zpos p) * x <= (1 + x) ^ Zpos p.
Proof.
  intros Hx. induction p as [|p IH] using Pos.peano_ind.
  - rewrite Qpower_1_r. change (inject_Z 1) with 1. lra.
  - rewrite Qpower_succ_pos. rewrite Pos2Z.inj_succ. unfold Z.succ.
    rewrite inject_Z_plus. change (inject_Z 1) with 1.
    assert (Hp : 0 <= inject_Z (Zpos p)).
    { change 0 with (inject_Z 0). rewrite <- Zle_Qle. lia. }
    set (n := inject_Z (Zpos p)) in *.
    set (y := (1 + x) ^ Zpos p) in *.
    assert (Hnx : 0 <= n * x * x).
    { apply Qmult_le_0_compat; [apply Qmult_le_0_compat|]; assumption. }
    assert (Hy : (1 + n * x) * (1 + x) <= y * (1 + x)).
    { apply Qmult_le_compat_r; lra. }
    assert (Hexp : (1 + n * x) * (1 + x) == 1 + (n + 1) * x + n * x * x)
      by ring.
    lra.
Qed.

Lemma bernoulli_strict (x : Q) (p : positive) :
  0 < x -> 1 + inject_Z (Zpos (Pos.succ p)) * x < (1 + x) ^ Zpos (Pos.succ p).
Proof.
  intros Hx. rewrite Qpower_succ_pos. rewrite Pos2Z.inj_succ. unfold Z.succ.
  rewrite inject_Z_plus. change (inject_Z 1) with 1.
  assert (IH := bernoulli x p (Qlt_le_weak _ _ Hx)).
  assert (Hp : 0 < inject_Z (Zpos p)).
  { change 0 with (inject_Z 0). rewrite <- Zlt_Qlt. lia. }
  set (n := inject_Z (Zpos p)) in *.
  set (y := (1 + x) ^ Zpos p) in *.
  assert (Hnx : 0 < n * x * x).
  { apply Qmult_lt_0_compat; [apply Qmult_lt_0_compat|]; assumption. }
  assert (Hy : (1 + n * x) * (1 + x) <= y * (1 + x)).
  { apply Qmult_le_compat_r; lra. }
  assert (Hexp : (1 + n * x) * (1 + x) == 1 + (n + 1) * x + n * x * x)
    by ring.
  lra.
Qed.

(** Compounding over a year beats the simple annualisation as soon as the
    per-block rate is positive. *)
Lemma simple_below_compounded (r : Q) :
  0 < r -> simple_percent r < compounded_percent r.
Proof.
  intros Hr. unfold simple_percent, compounded_percent.
  assert (H := bernoulli_strict r 10511999 Hr).
  change (Zpos (Pos.succ 10511999)) with 10512000%Z in H.
  change (inject_Z 10512000) with 10512000 in H.
  set (y := (1 + r) ^ 10512000) in *.
  lra.
Qed.

Lemma calculate_venus_rates_value (m : VenusMarket) (s b : Z) :
  supplyRatePerBlock m = Ok s ->
  borrowRatePerBlock m = Ok b ->
  exists supply_apy borrow_apy,
    calculate_venus_rates m = Ok (supply_apy, borrow_apy) /\
    supply_apy == simple_percent (rate_per_block s) /\
    borrow_apy == simple_percent (rate_per_block b).
Proof.
  intros Hs Hb.
  assert (Hprec : ~ PRECISION == 0) by (intros H; discriminate H).
  unfold calculate_venus_rates. rewrite Hs, Hb. cbn [bind].
  rewrite !(decimal_div_ok _ _ Hprec). cbn [bind reraise].
  do 2 eexists. split; [reflexivity|].
  unfold simple_percent, rate_per_block, BLOCKS_PER_YEAR.
  split; field; exact Hprec.
Qed.

(** C5. At a market whose supply rate is 1e9 (1e-9 per block) and whose
    borrow rate is 2e9, [calculate_venus_rates] returns 1.0512 and 2.1024
    percent: the simple annualisation 100 * r * 10512000, each strictly
    below the compounded value 100 * ((1 + r)^10512000 - 1). *)
Theorem calculate_venus_rates_simple_interest :
  exists supply_apy borrow_apy,
    calculate_venus_rates sample_market = Ok (supply_apy, borrow_apy) /\
    supply_apy == 1.0512 /\
    borrow_apy == 2.1024 /\
    supply_apy < compounded_percent (rate_per_block 1000000000) /\
    borrow_apy < compounded_percent (rate_per_block 2000000000).
Proof.
  destruct (calculate_venus_rates_value sample_market
              1000000000 2000000000 eq_refl eq_refl)
    as [sa [ba [Hret [Hsa Hba]]]].
  exists sa, ba. split; [exact Hret|].
  split; [rewrite Hsa; reflexivity|].
  split; [rewrite Hba; reflexivity|].
  split.
  - rewrite Hsa. apply simple_below_compounded. reflexivity.
  - rewrite Hba. apply simple_below_compounded. reflexivity.
Qed.

End LendingRates.

Section PairPrices.
Import PriceCalculator.

Lemma pow10_nonzero (d : N) : ~ inject_Z (10 ^ Z.of_N d) == 0.
Proof.
  intros H. unfold Qeq in H. simpl in H.
  assert (0 < 10 ^ Z.of_N d)%Z by (apply Z.pow_pos_nonneg; lia). lia.
Qed.

Lemma inject_Z_nonzero (z : Z) : z <> 0%Z -> ~ inject_Z z == 0.
Proof.
  intros Hz H. unfold Qeq in H. simpl in H. lia.
Qed.

Lemma Qeq_bool_false (q : Q) : ~ q == 0 -> Qeq_bool q 0 = false.
Proof.
  intros H. destruct (Qeq_bool q 0) eqn:E; [|reflexivity].
  apply Qeq_bool_eq in E. contradiction.
Qed.

(** The price read from an existing pair with nonzero reserves: the
    pair's [reserve1] over its [reserve0], each scaled by the decimals of
    the argument in the same position. *)
Lemma price_from_pair_value (chain : Chain) (a b pair : string)
    (res : Reserves) (da db : N) :
  getPair chain a b = Ok pair ->
  String.eqb pair ZERO_ADDRESS = false ->
  getReserves chain pair = Ok res ->
  decimals chain a = Ok da ->
  decimals chain b = Ok db ->
  _reserve0 res <> 0%Z ->
  _reserve1 res <> 0%Z ->
  _get_token_price_from_pair chain a b
  = Some ((inject_Z (_reserve1 res) / inject_Z (10 ^ Z.of_N db))
          / (inject_Z (_reserve0 res) / inject_Z (10 ^ Z.of_N da))).
Proof.
  intros Hp Hnz Hr Ha Hb H0 H1.
  unfold _get_token_price_from_pair, price_from_pair_body.
  rewrite Hp. cbn [bind]. rewrite Hnz, Hr. cbn [bind].
  rewrite Ha, Hb. cbn [bind].
  rewrite !(decimal_div_ok _ _ (pow10_nonzero _)). cbn [bind].
  assert (Hq0 : ~ inject_Z (_reserve0 res) / inject_Z (10 ^ Z.of_N da) == 0).
  { intros H. apply (inject_Z_nonzero _ H0).
    rewrite <- (Qmult_div_r (inject_Z (_reserve0 res))
                  (inject_Z (10 ^ Z.of_N da)) (pow10_nonzero da)).
    rewrite H. ring. }
  assert (Hq1 : ~ inject_Z (_reserve1 res) / inject_Z (10 ^ Z.of_N db) == 0).
  { intros H. apply (inject_Z_nonzero _ H1).
    rewrite <- (Qmult_div_r (inject_Z (_reserve1 res))
                  (inject_Z (10 ^ Z.of_N db)) (pow10_nonzero db)).
    rewrite H. ring. }
  rewrite (Qeq_bool_false _ Hq0), (Qeq_bool_false _ Hq1). cbn [orb].
  rewrite (decimal_div_ok _ _ Hq0). reflexivity.
Qed.

(** Both directions of one pair read the same two reserves in the same
    order, so their product is the square of the reserve ratio. *)
Lemma price_from_pair_product (chain : Chain) (a b pair : string)
    (res : Reserves) (da db : N) :
  getPair chain a b = Ok pair ->
  getPair chain b a = Ok pair ->
  String.eqb pair ZERO_ADDRESS = false ->
  getReserves chain pair = Ok res ->
  decimals chain a = Ok da ->
  decimals chain b = Ok db ->
  _reserve0 res <> 0%Z ->
  _reserve1 res <> 0%Z ->
  exists p q,
    _get_token_price_from_pair chain a b = Some p /\
    _get_token_price_from_pair chain b a = Some q /\
    p * q == (inject_Z (_reserve1 res) / inject_Z (_reserve0 res)) ^ 2.
Proof.
  intros Hab Hba Hnz Hr Ha Hb H0 H1.
  do 2 eexists. split; [|split].
  - exact (price_from_pair_value chain a b pair res da db
             Hab Hnz Hr Ha Hb H0 H1).
  - exact (price_from_pair_value chain b a pair res db da
             Hba Hnz Hr Hb Ha H0 H1).
  - assert (Ha' := pow10_nonzero da). assert (Hb' := pow10_nonzero db).
    assert (H0' := inject_Z_nonzero _ H0).
    assert (H1' := inject_Z_nonzero _ H1).
    simpl Qpower. field. repeat split; assumption.
Qed.

(** C7. On a pair holding 1 WBNB and 300 BUSD, the single-pair price of
    WBNB in BUSD and the single-pair price of BUSD in WBNB are both 300:
    their product is 90000, not 1. *)
Theorem price_from_pair_not_reciprocal :
  exists p q,
    _get_token_price_from_pair wbnb_busd_chain WBNB BUSD = Some p /\
    _get_token_price_from_pair wbnb_busd_chain BUSD WBNB = Some q /\
    p == 300 /\ q == 300 /\ p * q == 90000 /\ ~ Qabs (p * q - 1) <= 1.
Proof.
  do 2 eexists. split; [vm_compute; reflexivity|].
  split; [vm_compute; reflexivity|].
  repeat split; try reflexivity.
  intros H. vm_compute in H. apply H. reflexivity.
Qed.

End PairPrices.

Section PriceResolution.
Import PriceCalculator.

Lemma price_from_missing_pair (chain : Chain) (a b : string) :
  pair_missing chain a b -> _get_token_price_from_pair chain a b = None.
Proof.
  intros H. unfold _get_token_price_from_pair, price_from_pair_body.
  rewrite H. reflexivity.
Qed.

(** C3 (amended). For every token with no direct BUSD pair and no 2-hop
    path through WBNB, [PriceCalculator.get_token_price] raises the
    exception [No valid price path found for token ...] (logged and
    re-raised); it does not return a not-found value. *)
Theorem get_token_price_unresolved_raises :
  forall (chain : Chain) (token_address : string),
    pair_missing chain token_address BUSD ->
    pair_missing chain token_address WBNB \/ pair_missing chain WBNB BUSD ->
    get_token_price chain token_address
    = Raise (no_price_path token_address).
Proof.
  intros chain token Hdirect Hhop. unfold get_token_price.
  rewrite (price_from_missing_pair _ _ _ Hdirect).
  destruct Hhop as [Hleg1 | Hleg2].
  - now rewrite (price_from_missing_pair _ _ _ Hleg1).
  - rewrite (price_from_missing_pair _ _ _ Hleg2).
    now destruct (_get_token_price_from_pair chain token WBNB).
Qed.

Lemma get_token_price_unresolved_raises_witness :
  get_token_price pairless_chain CAKE = Raise (no_price_path CAKE).
Proof.
  apply (get_token_price_unresolved_raises pairless_chain CAKE);
    [reflexivity | left; reflexivity].
Defined.

(** C3, as stated, fails: CAKE has no BUSD pair and no WBNB pair on the
    pairless chain, and the price resolution returns no outcome at all. *)
Lemma get_token_price_unresolved_not_returned :
  pair_missing pairless_chain CAKE BUSD /\
  pair_missing pairless_chain CAKE WBNB /\
  ~ (exists outcome, get_token_price pairless_chain CAKE = Ok outcome).
Proof.
  split; [reflexivity|]. split; [reflexivity|].
  intros [outcome H]. vm_compute in H. discriminate H.
Qed.

End PriceResolution.

Section PartialFailure.
Import YieldScanner.
Context {Dict : Type}.

Lemma not_none_In (results : list (option Dict)) (d : Dict) :
  In d (not_none results) <-> In (Some d) results.
Proof.
  induction results as [|[r|] rest IH]; simpl.
  - tauto.
  - rewrite IH. split; intros [H | H]; auto.
    + left. now f_equal.
    + left. now injection H.
  - rewrite IH. split; [auto|]. intros [H | H]; [discriminate H | exact H].
Qed.

Lemma catch_none_Some (body : result Dict) (d : Dict) :
  catch_none body = Some d <-> body = Ok d.
Proof.
  destruct body; simpl; split; intros H;
    try discriminate H; now injection H as ->.
Qed.

(** The opportunities of a farm scan are exactly the details of the pools
    whose fetch succeeded. *)
Lemma farm_scan_In (farm : Farm Dict) (n : nat) (d : Dict) :
  poolLength farm = Ok n ->
  In d (_scan_pancakeswap farm) <->
  exists pid, (pid < n)%nat /\ pool_detail farm pid = Ok d.
Proof.
  intros Hn. unfold _scan_pancakeswap. rewrite Hn.
  rewrite not_none_In, in_map_iff. split.
  - intros [pid [Hpid Hin]]. exists pid. apply in_seq in Hin.
    split; [lia|]. now apply catch_none_Some.
  - intros [pid [Hlt Hok]]. exists pid. split.
    + now apply catch_none_Some.
    + apply in_seq. lia.
Qed.

Lemma lending_scan_In (lending : Lending Dict) (markets : list string)
    (d : Dict) :
  getAllMarkets lending = Ok markets ->
  In d (_scan_venus lending) <->
  exists market, In market markets /\ market_detail lending market = Ok d.
Proof.
  intros Hm. unfold _scan_venus. rewrite Hm.
  rewrite not_none_In, in_map_iff. split.
  - intros [market [Hdet Hin]]. exists market.
    split; [exact Hin|]. now apply catch_none_Some.
  - intros [market [Hin Hok]]. exists market. split.
    + now apply catch_none_Some.
    + exact Hin.
Qed.

(** C9. A protocol whose pool enumeration fails contributes the empty
    list and the overall scan still returns the opportunities of the
    other protocols; a pool whose detail fetch fails yields [None] and is
    the only one omitted: every pool whose fetch succeeds is in the
    protocol's batch and in the overall scan. *)
Theorem scan_partial_failure_tolerance :
  forall p : Protocols Dict,
    (* enumeration failures *)
    ((forall msg, poolLength (pancakeswap p) = Raise msg ->
        _scan_pancakeswap (pancakeswap p) = [] /\
        scan p = (_scan_venus (venus p) ++ _scan_alpaca (alpaca p)
                  ++ _scan_biswap (biswap p))%list) /\
     (forall msg, getAllMarkets (venus p) = Raise msg ->
        _scan_venus (venus p) = [] /\
        scan p = (_scan_pancakeswap (pancakeswap p)
                  ++ _scan_alpaca (alpaca p)
                  ++ _scan_biswap (biswap p))%list) /\
     (forall msg, poolLength (alpaca p) = Raise msg ->
        _scan_alpaca (alpaca p) = []) /\
     (forall msg, poolLength (biswap p) = Raise msg ->
        _scan_biswap (biswap p) = [])) /\
    (* the overall scan returns what each protocol scan returned *)
    (forall d,
       In d (scan p) <->
       In d (_scan_pancakeswap (pancakeswap p)) \/
       In d (_scan_venus (venus p)) \/
       In d (_scan_alpaca (alpaca p)) \/
       In d (_scan_biswap (biswap p))) /\
    (* per-pool failures *)
    ((forall pid msg, pool_detail (pancakeswap p) pid = Raise msg ->
        _get_pancake_pool_info (pancakeswap p) pid = None) /\
     (forall market msg, market_detail (venus p) market = Raise msg ->
        _get_venus_market_info (venus p) market = None) /\
     (forall n d, poolLength (pancakeswap p) = Ok n ->
        In d (_scan_pancakeswap (pancakeswap p)) <->
        exists pid, (pid < n)%nat /\
                    pool_detail (pancakeswap p) pid = Ok d) /\
     (forall markets d, getAllMarkets (venus p) = Ok markets ->
        In d (_scan_venus (venus p)) <->
        exists market, In market markets /\
                       market_detail (venus p) market = Ok d) /\
     (forall n d, poolLength (alpaca p) = Ok n ->
        In d (_scan_alpaca (alpaca p)) <->
        exists pid, (pid < n)%nat /\ pool_detail (alpaca p) pid = Ok d) /\
     (forall n d, poolLength (biswap p) = Ok n ->
        In d (_scan_biswap (biswap p)) <->
        exists pid, (pid < n)%nat /\ pool_detail (biswap p) pid = Ok d)).
Proof.
  intros p. split; [|split].
  - split; [|split; [|split]]; intros msg H.
    + assert (E : _scan_pancakeswap (pancakeswap p) = [])
        by (unfold _scan_pancakeswap; now rewrite H).
      split; [exact E|]. unfold scan. now rewrite E.
    + assert (E : _scan_venus (venus p) = [])
        by (unfold _scan_venus; now rewrite H).
      split; [exact E|]. unfold scan. now rewrite E.
    + unfold _scan_alpaca. now rewrite H.
    + unfold _scan_biswap. now rewrite H.
  - intros d. unfold scan. rewrite !in_app_iff. tauto.
  - split; [|split; [|split; [|split; [|split]]]].
    + intros pid msg H. unfold _get_pancake_pool_info. now rewrite H.
    + intros market msg H. unfold _get_venus_market_info. now rewrite H.
    + intros n d Hn. now apply farm_scan_In.
    + intros markets d Hm. now apply lending_scan_In.
    + intros n d Hn. now apply (farm_scan_In (alpaca p)).
    + intros n d Hn. now apply (farm_scan_In (biswap p)).
Qed.

End PartialFailure.

Section PartialFailureExample.
Import YieldScanner.

Lemma scan_partial_failure_tolerance_witness :
  _scan_pancakeswap (pancakeswap sample_protocols) = [] /\
  _get_venus_market_info (venus sample_protocols) "vBUSD" = None /\
  In "vCAKE" (_scan_venus (venus sample_protocols)) /\
  In "vCAKE" (scan sample_protocols).
Proof.
  destruct (scan_partial_failure_tolerance sample_protocols)
    as [[Hpancake _] [Hall [_ [Hnone [_ [Hvenus _]]]]]].
  assert (Hin : In "vCAKE" (_scan_venus (venus sample_protocols))).
  { apply (Hvenus ["vBNB"; "vBUSD"; "vCAKE"] "vCAKE" eq_refl).
    exists "vCAKE". split; [simpl; tauto | reflexivity]. }
  split; [exact (proj1 (Hpancake "HTTPError: 503" eq_refl))|].
  split; [exact (Hnone "vBUSD" "execution reverted" eq_refl)|].
  split; [exact Hin|].
  apply Hall. right. left. exact Hin.
Defined.

End PartialFailureExample.

Section Ranking.
Import Defitrader.

Lemma Qlt_bool_true (a b : Q) : Qlt_bool a b = true <-> a < b.
Proof.
  unfold Qlt_bool. rewrite negb_true_iff. split.
  - intros H. apply Qnot_le_lt. intros Hle.
    apply Qle_bool_iff in Hle. congruence.
  - intros H. destruct (Qle_bool b a) eqn:E; [|reflexivity].
    apply Qle_bool_iff in E. exfalso. exact (Qlt_not_le _ _ H E).
Qed.

Lemma Qlt_bool_false (a b : Q) : Qlt_bool a b = false <-> b <= a.
Proof.
  unfold Qlt_bool. rewrite negb_false_iff. apply Qle_bool_iff.
Qed.

Lemma insert_desc_perm (x : Opportunity) (l : list Opportunity) :
  Permutation (insert_desc x l) (x :: l).
Proof.
  induction l as [|y rest IH]; simpl.
  - apply Permutation_refl.
  - destruct (Qlt_bool (expected_roi x) (expected_roi y)).
    + eapply Permutation_trans; [apply perm_skip, IH | apply perm_swap].
    + apply Permutation_refl.
Qed.

Lemma sorted_perm (l : list Opportunity) :
  Permutation (sorted_by_expected_roi_desc l) l.
Proof.
  induction l as [|x rest IH]; simpl.
  - apply Permutation_refl.
  - eapply Permutation_trans; [apply insert_desc_perm|].
    now apply perm_skip.
Qed.

Lemma roi_desc_trans (a b c : Opportunity) :
  roi_desc a b -> roi_desc b c -> roi_desc a c.
Proof.
  unfold roi_desc. intros Hab Hbc. eapply Qle_trans; eassumption.
Qed.

Lemma insert_desc_sorted (x : Opportunity) (l : list Opportunity) :
  StronglySorted roi_desc l -> StronglySorted roi_desc (insert_desc x l).
Proof.
  induction 1 as [|y rest Hsorted IH Hall]; simpl.
  - constructor; constructor.
  - destruct (Qlt_bool (expected_roi x) (expected_roi y)) eqn:E.
    + apply Qlt_bool_true in E. constructor; [exact IH|].
      apply (Permutation_Forall (Permutation_sym (insert_desc_perm x rest))).
      constructor; [|exact Hall].
      unfold roi_desc. now apply Qlt_le_weak.
    + apply Qlt_bool_false in E. constructor.
      * now constructor.
      * constructor; [exact E|].
        eapply Forall_impl; [|exact Hall].
        intros z Hz. now apply (roi_desc_trans x y z).
Qed.

Lemma sorted_is_sorted (l : list Opportunity) :
  StronglySorted roi_desc (sorted_by_expected_roi_desc l).
Proof.
  induction l as [|x rest IH]; simpl.
  - constructor.
  - now apply insert_desc_sorted.
Qed.

Lemma insert_desc_stable (k : Q) (x : Opportunity) (l : list Opportunity) :
  with_roi k (insert_desc x l) = with_roi k (x :: l).
Proof.
  unfold with_roi. induction l as [|y rest IH]; [reflexivity|].
  simpl insert_desc.
  destruct (Qlt_bool (expected_roi x) (expected_roi y)) eqn:E;
    [|reflexivity].
  apply Qlt_bool_true in E.
  simpl filter in *. rewrite IH.
  destruct (Qeq_bool (expected_roi x) k) eqn:Ex;
    destruct (Qeq_bool (expected_roi y) k) eqn:Ey; try reflexivity.
  apply Qeq_bool_eq in Ex, Ey. rewrite Ex, Ey in E.
  exfalso. exact (Qlt_irrefl _ E).
Qed.

Lemma sorted_stable (k : Q) (l : list Opportunity) :
  with_roi k (sorted_by_expected_roi_desc l) = with_roi k l.
Proof.
  induction l as [|x rest IH]; [reflexivity|].
  simpl sorted_by_expected_roi_desc. rewrite insert_desc_stable.
  unfold with_roi in *. simpl. now rewrite IH.
Qed.

(** C1 (amended). The ranked list returned by
    [EnhancedTradingAgent.scan_all_opportunities] is a rearrangement of
    the collected opportunities (for [YieldStrategy.scan_opportunities]:
    of those that pass its filter) sorted by [expected_roi] in descending
    order; opportunities with equal [expected_roi] keep the order in which
    the scan produced them, and no tie-break on risk score or address is
    applied. *)
Theorem ranking_sorted_by_roi_stable :
  (forall strategies all_opportunities,
     extend_all strategies = Ok all_opportunities ->
     exists ranked,
       scan_all_opportunities strategies = Ok ranked /\
       Permutation ranked all_opportunities /\
       StronglySorted roi_desc ranked /\
       forall k, with_roi k ranked = with_roi k all_opportunities) /\
  (forall opportunities,
     let ranked := scan_opportunities (Ok opportunities) in
     Permutation ranked (_filter_opportunities opportunities) /\
     StronglySorted roi_desc ranked /\
     forall k,
       with_roi k ranked = with_roi k (_filter_opportunities opportunities)).
Proof.
  split.
  - intros strategies all Hall. unfold scan_all_opportunities.
    rewrite Hall. cbn [bind]. eexists. split; [reflexivity|].
    split; [apply sorted_perm|]. split; [apply sorted_is_sorted|].
    intros k. apply sorted_stable.
  - intros opportunities. cbn zeta. unfold scan_opportunities.
    split; [apply sorted_perm|]. split; [apply sorted_is_sorted|].
    intros k. apply sorted_stable.
Qed.

End Ranking.

Section RankingExample.
Import Defitrader.

Lemma ranking_sorted_by_roi_stable_witness :
  exists ranked,
    scan_all_opportunities [Ok [farm_a; farm_c]; Ok [farm_b]] = Ok ranked /\
    Permutation ranked [farm_a; farm_c; farm_b] /\
    StronglySorted roi_desc ranked /\
    forall k, with_roi k ranked = with_roi k [farm_a; farm_c; farm_b].
Proof.
  apply (proj1 ranking_sorted_by_roi_stable
           [Ok [farm_a; farm_c]; Ok [farm_b]] [farm_a; farm_c; farm_b]).
  reflexivity.
Defined.

(** C1, as stated, fails: [farm_a] and [farm_b] have the same
    [expected_roi]; [farm_b] has the lower risk score, yet both rankings
    return [farm_a] first, as the scan produced them. *)
Lemma ranking_ignores_risk_tie_break :
  scan_all_opportunities [Ok [farm_a; farm_c]; Ok [farm_b]]
  = Ok [farm_c; farm_a; farm_b] /\
  scan_opportunities (Ok [farm_a; farm_c; farm_b])
  = [farm_c; farm_a; farm_b] /\
  ~ StronglySorted ranked_before [farm_c; farm_a; farm_b].
Proof.
  split; [reflexivity|]. split; [reflexivity|].
  intros H.
  apply StronglySorted_inv in H. destruct H as [H _].
  apply StronglySorted_inv in H. destruct H as [_ H].
  apply Forall_inv in H. unfold ranked_before in H.
  destruct H as [H | [_ [H | [H _]]]]; vm_compute in H; discriminate H.
Qed.

End RankingExample.

Section Volatility.
Import RiskCalculator.
Local Open Scope R_scope.

Lemma daily_returns_cons (x y : R) (rest : list R) :
  daily_returns (x :: y :: rest) = (y - x) / x :: daily_returns (y :: rest).
Proof. reflexivity. Qed.

Lemma daily_returns_spec_cons (x y : R) (rest : list R) :
  daily_returns_spec (x :: y :: rest)
  = (y - x) / x :: daily_returns_spec (y :: rest).
Proof.
  unfold daily_returns_spec.
  replace (List.length (x :: y :: rest) - 1)%nat
    with (S (List.length (y :: rest) - 1)) by (simpl; lia).
  rewrite <- cons_seq, <- seq_shift, map_cons, map_map. reflexivity.
Qed.

Lemma daily_returns_matches_spec (prices : list R) :
  daily_returns prices = daily_returns_spec prices.
Proof.
  induction prices as [|x rest IH]; [reflexivity|].
  destruct rest as [|y rest]; [reflexivity|].
  now rewrite daily_returns_cons, daily_returns_spec_cons, IH.
Qed.

Lemma np_std_matches_stdev (xs : list R) : np_std xs = stdev xs.
Proof.
  unfold np_std, stdev, np_mean, np_sum. rewrite length_map.
  do 3 f_equal. apply map_ext. intros x.
  rewrite pow2_abs. ring.
Qed.

Lemma np_std_nonneg (xs : list R) : 0 <= np_std xs.
Proof. unfold np_std. apply sqrt_pos. Qed.

(** C10. A price history with fewer than two entries is scored exactly
    0.0; a history of at least two positive prices is scored
    min(1, stdev(dailyReturns) * sqrt(365)), which lies in [0,1]. *)
Theorem calculate_pool_volatility_spec :
  (forall price_history,
     (List.length price_history < 2)%nat ->
     calculate_pool_volatility price_history = 0) /\
  (forall price_history,
     (2 <= List.length price_history)%nat ->
     Forall (fun price => 0 < price) price_history ->
     calculate_pool_volatility price_history
     = Rmin 1 (stdev (daily_returns_spec price_history) * sqrt 365) /\
     0 <= calculate_pool_volatility price_history <= 1).
Proof.
  split.
  - intros ph Hlen. unfold calculate_pool_volatility.
    apply Nat.ltb_lt in Hlen. now rewrite Hlen.
  - intros ph Hlen _. unfold calculate_pool_volatility.
    apply Nat.ltb_ge in Hlen. rewrite Hlen. cbn zeta.
    split.
    + now rewrite daily_returns_matches_spec, np_std_matches_stdev.
    + split.
      * apply Rmin_glb; [Lra.lra|].
        apply Rmult_le_pos; [apply np_std_nonneg | apply sqrt_pos].
      * apply Rmin_l.
Qed.

Lemma calculate_pool_volatility_spec_witness :
  calculate_pool_volatility [310] = 0 /\
  calculate_pool_volatility [300; 303; 297]
  = Rmin 1 (stdev (daily_returns_spec [300; 303; 297]) * sqrt 365) /\
  0 <= calculate_pool_volatility [300; 303; 297] <= 1.
Proof.
  split.
  - apply (proj1 calculate_pool_volatility_spec [310]). simpl. lia.
  - apply (proj2 calculate_pool_volatility_spec [300; 303; 297]).
    + simpl. lia.
    + repeat constructor; Lra.lra.
Defined.

End Volatility.

(** * Further properties of the calculators *)

Lemma Qle_bool_false_lt (x y : Q) : Qle_bool x y = false -> y < x.
Proof.
  intros H. apply Qnot_le_lt. intros Hle.
  apply Qle_bool_iff in Hle. congruence.
Qed.

Lemma Qle_bool_inject_Z (a b : Z) :
  Qle_bool (inject_Z a) (inject_Z b) = (a <=? b)%Z.
Proof.
  unfold Qle_bool. simpl. now rewrite !Z.mul_1_r.
Qed.

(** Case analysis on every threshold test of the goal. *)
Ltac threshold_cases :=
  repeat match goal with
         | |- context [Qle_bool ?x ?y] =>
             let E := fresh "E" in
             destruct (Qle_bool x y) eqn:E;
             [apply Qle_bool_iff in E | apply Qle_bool_false_lt in E]
         end.

Section StepFunctions.
Import RiskCalculator.

(** X1. The TVL risk never rises with the TVL: a pool with at least as much
    value locked is never scored riskier; and the score always lies between
    0.1 and 1. *)
Theorem calculate_tvl_risk_antitone :
  forall tvl tvl' : Q,
    tvl <= tvl' ->
    calculate_tvl_risk tvl' <= calculate_tvl_risk tvl /\
    0.1 <= calculate_tvl_risk tvl <= 1.
Proof.
  intros a b Hab.
  unfold calculate_tvl_risk, TVL_THRESHOLDS, first_threshold.
  threshold_cases; lra.
Qed.

Lemma calculate_tvl_risk_antitone_witness :
  calculate_tvl_risk 7_500_000 <= calculate_tvl_risk 600_000 /\
  0.1 <= calculate_tvl_risk 600_000 <= 1.
Proof.
  apply (calculate_tvl_risk_antitone 600_000 7_500_000).
  vm_compute. discriminate.
Defined.

(** X2. The age risk of the risk calculator (a threshold table walked in
    order) and the age risk of the scanner (an if-chain) are the same
    function of the age in days, negative ages included. *)
Theorem age_risk_implementations_agree :
  forall age_in_days : Z,
    calculate_age_risk age_in_days
    = YieldScanner._calculate_age_risk age_in_days.
Proof.
  intros age.
  unfold calculate_age_risk, AGE_THRESHOLDS, first_threshold,
    YieldScanner._calculate_age_risk.
  change (365 : Q) with (inject_Z 365). change (180 : Q) with (inject_Z 180).
  change (90 : Q) with (inject_Z 90). change (30 : Q) with (inject_Z 30).
  change (0 : Q) with (inject_Z 0).
  rewrite !Qle_bool_inject_Z.
  destruct (365 <=? age)%Z eqn:E1; [reflexivity|].
  destruct (180 <=? age)%Z eqn:E2; [reflexivity|].
  destruct (90 <=? age)%Z eqn:E3; [reflexivity|].
  destruct (30 <=? age)%Z eqn:E4; [reflexivity|].
  destruct (0 <=? age)%Z; reflexivity.
Qed.

(** X3. The scanner's own TVL risk is never above the risk calculator's,
    and it is strictly below it for every TVL from 100K up to (not
    including) 5M: the two step functions use different thresholds. *)
Theorem scanner_tvl_risk_below_calculator :
  (forall tvl : Q,
     YieldScanner._calculate_tvl_risk tvl <= calculate_tvl_risk tvl) /\
  (forall tvl : Q,
     100_000 <= tvl -> tvl < 5_000_000 ->
     YieldScanner._calculate_tvl_risk tvl < calculate_tvl_risk tvl).
Proof.
  split; intros tvl;
    unfold YieldScanner._calculate_tvl_risk, calculate_tvl_risk,
      TVL_THRESHOLDS, first_threshold.
  - threshold_cases; lra.
  - intros Hlo Hhi. threshold_cases; lra.
Qed.

Lemma scanner_tvl_risk_below_calculator_witness :
  YieldScanner._calculate_tvl_risk 2_000_000 < calculate_tvl_risk 2_000_000.
Proof.
  apply (proj2 scanner_tvl_risk_below_calculator 2_000_000).
  - vm_compute. discriminate.
  - reflexivity.
Defined.

End StepFunctions.

Section ScannerRiskScore.
Import YieldScanner.

Lemma scanner_tvl_risk_bounds (tvl : Q) :
  0.1 <= _calculate_tvl_risk tvl <= 0.9.
Proof. unfold _calculate_tvl_risk. threshold_cases; lra. Qed.

Lemma scanner_apr_risk_bounds (apr : Q) :
  0.2 <= _calculate_apr_risk apr <= 1.
Proof. unfold _calculate_apr_risk. threshold_cases; lra. Qed.

Lemma scanner_liquidity_risk_bounds (tvl : Q) :
  0.1 <= _calculate_liquidity_risk tvl <= 0.9.
Proof. unfold _calculate_liquidity_risk. threshold_cases; lra. Qed.

Lemma scanner_age_risk_bounds (age : Z) :
  0.2 <= _calculate_age_risk age <= 1.
Proof.
  unfold _calculate_age_risk.
  repeat match goal with
         | |- context [(?a <=? ?b)%Z] => destruct (a <=? b)%Z
         end; lra.
Qed.

Lemma scanner_protocol_risk_bounds (protocol : string) :
  0.2 <= _calculate_protocol_risk protocol <= 0.9.
Proof.
  unfold _calculate_protocol_risk, protocol_risks, dict_get.
  repeat match goal with
         | |- context [String.eqb ?a ?b] => destruct (String.eqb a b)
         end; lra.
Qed.

(** X4. The class defines no [_get_pool_age] and sets no [price_cache]:
    on such a scanner [_calculate_risk_score] returns the maximal risk 1
    for every pool, whatever its TVL, protocol and APR, and
    [get_token_price] raises [AttributeError] for every token. *)
Theorem scanner_missing_attributes :
  (forall (self : ScannerAttributes) (pool_info : PoolInfoDict),
     _get_pool_age self = None ->
     _calculate_risk_score self pool_info = 1) /\
  (forall (depth : nat) (self : ScannerAttributes) (chain : PairChain)
          (token_address : string),
     price_cache self = None ->
     get_token_price depth self chain token_address
     = Raise "'YieldScanner' object has no attribute 'price_cache'").
Proof.
  split.
  - intros self [tvl protocol apr address] Hage.
    unfold _calculate_risk_score, risk_score_body. rewrite Hage.
    destruct tvl, protocol, apr; reflexivity.
  - intros depth self chain token Hcache.
    unfold get_token_price. now rewrite Hcache.
Qed.

Lemma scanner_missing_attributes_witness :
  _calculate_risk_score as_written cake_bnb_pool = 1 /\
  get_token_price 1000 as_written
    (mkPairChain (fun _ _ => Ok NO_PAIR)
                 (fun _ => Raise "execution reverted")
                 (fun _ => Raise "execution reverted"))
    "0x0E09FaBB73Bd3Ade0a17ECC321fD13a19e81cE82"
  = Raise "'YieldScanner' object has no attribute 'price_cache'".
Proof.
  split.
  - apply (proj1 scanner_missing_attributes as_written cake_bnb_pool).
    reflexivity.
  - apply (proj2 scanner_missing_attributes). reflexivity.
Defined.

(** X5. On a scanner that does have a pool-age method, a pool with the
    keys [tvl], [protocol] and [apr] gets the weighted sum
    0.3*tvl + 0.2*protocol + 0.2*apr + 0.15*age + 0.15*liquidity of its five
    sub-scores, which always lies between 0.155 and 0.935: the final clamp
    to [0,1] never changes it. *)
Theorem scanner_risk_score_weighted :
  forall (self : ScannerAttributes) (pool_info : PoolInfoDict)
         (get_pool_age : string -> result Z)
         (tvl apr : Q) (protocol : string) (age : Z),
    _get_pool_age self = Some get_pool_age ->
    pool_tvl pool_info = Some tvl ->
    pool_protocol pool_info = Some protocol ->
    pool_apr pool_info = Some apr ->
    get_pool_age (match pool_address pool_info with
                  | Some address => address
                  | None => ""
                  end) = Ok age ->
    _calculate_risk_score self pool_info
    == 0.3 * _calculate_tvl_risk tvl
       + 0.2 * _calculate_protocol_risk protocol
       + 0.2 * _calculate_apr_risk apr
       + 0.15 * _calculate_age_risk age
       + 0.15 * _calculate_liquidity_risk tvl /\
    0.155 <= _calculate_risk_score self pool_info <= 0.935.
Proof.
  intros self pool_info get_age tvl apr protocol age Hm Ht Hp Ha Hage.
  unfold _calculate_risk_score, risk_score_body.
  rewrite Hm, Ht, Hp, Ha. cbn [pool_item attribute bind]. rewrite Hage.
  cbn [bind]. cbn [weighted_sum risk_weights dict_item dict_get bind].
  cbn.
  assert (B1 := scanner_tvl_risk_bounds tvl).
  assert (B2 := scanner_protocol_risk_bounds protocol).
  assert (B3 := scanner_apr_risk_bounds apr).
  assert (B4 := scanner_age_risk_bounds age).
  assert (B5 := scanner_liquidity_risk_bounds tvl).
  set (t := _calculate_tvl_risk tvl) in *.
  set (p := _calculate_protocol_risk protocol) in *.
  set (a := _calculate_apr_risk apr) in *.
  set (g := _calculate_age_risk age) in *.
  set (l := _calculate_liquidity_risk tvl) in *.
  match goal with
  | |- context [Qmin (Qmax ?x 0) 1] =>
      generalize (Q.max_spec x 0) (Q.min_spec (Qmax x 0) 1);
      generalize (Qmin (Qmax x 0) 1) (Qmax x 0)
  end.
  intros lo hi [[H0 Hmax] | [H0 Hmax]] [[H1 Hmin] | [H1 Hmin]];
    split; lra.
Qed.

Lemma scanner_risk_score_weighted_witness :
  0.155 <= _calculate_risk_score scanner_with_age cake_bnb_pool <= 0.935.
Proof.
  apply (scanner_risk_score_weighted scanner_with_age cake_bnb_pool
           (fun _ => Ok 400%Z) 2_000_000 42 "PancakeSwap" 400%Z);
    reflexivity.
Defined.

End ScannerRiskScore.

Section YieldStrategyFilter.
Import Defitrader.

Lemma passes_filter_thresholds (opp : Opportunity) :
  passes_filter opp = true <->
  0.15 <= expected_roi opp /\
  risk_score opp <= 0.65 /\
  500000 <= tvl opp /\
  0.75 <= protocol_score opp /\
  0.6 <= liquidity_score opp.
Proof.
  unfold passes_filter.
  destruct (Qlt_bool (expected_roi opp) 0.15) eqn:E1;
    [apply Qlt_bool_true in E1 | apply Qlt_bool_false in E1].
  { split; [discriminate | intros [H _]; exfalso; lra]. }
  destruct (Qlt_bool 0.65 (risk_score opp)) eqn:E2;
    [apply Qlt_bool_true in E2 | apply Qlt_bool_false in E2].
  { split; [discriminate | intros [_ [H _]]; exfalso; lra]. }
  destruct (Qlt_bool (tvl opp) 500000) eqn:E3;
    [apply Qlt_bool_true in E3 | apply Qlt_bool_false in E3].
  { split; [discriminate | intros [_ [_ [H _]]]; exfalso; lra]. }
  destruct (Qlt_bool (protocol_score opp) 0.75) eqn:E4;
    [apply Qlt_bool_true in E4 | apply Qlt_bool_false in E4].
  { split; [discriminate | intros [_ [_ [_ [H _]]]]; exfalso; lra]. }
  destruct (Qlt_bool (liquidity_score opp) 0.6) eqn:E5;
    [apply Qlt_bool_true in E5 | apply Qlt_bool_false in E5].
  { split; [discriminate | intros [_ [_ [_ [_ H]]]]; exfalso; lra]. }
  split; [intros _; repeat split; assumption | reflexivity].
Qed.

(** X6. [YieldStrategy.scan_opportunities] returns exactly the formatted
    opportunities that meet all five thresholds (expected ROI at least
    0.15, risk score at most 0.65, TVL at least 500000, protocol score at
    least 0.75, liquidity score at least 0.6), the boundary values
    included; and it returns the empty list when the scanner raises. *)
Theorem scan_opportunities_thresholds :
  (forall (opportunities : list Opportunity) (opp : Opportunity),
     In opp (scan_opportunities (Ok opportunities)) <->
     In opp opportunities /\
     0.15 <= expected_roi opp /\
     risk_score opp <= 0.65 /\
     500000 <= tvl opp /\
     0.75 <= protocol_score opp /\
     0.6 <= liquidity_score opp) /\
  (forall msg : string, scan_opportunities (Raise msg) = []).
Proof.
  split; [|reflexivity].
  intros opportunities opp. unfold scan_opportunities. cbn zeta.
  rewrite <- passes_filter_thresholds. unfold _filter_opportunities.
  rewrite <- filter_In. split; intros H.
  - apply (Permutation_in _ (sorted_perm _)). exact H.
  - apply (Permutation_in _ (Permutation_sym (sorted_perm _))). exact H.
Qed.

Lemma scan_opportunities_thresholds_witness :
  In farm_b (scan_opportunities (Ok [farm_a; farm_c; farm_b])).
Proof.
  apply (proj1 scan_opportunities_thresholds [farm_a; farm_c; farm_b] farm_b).
  split; [simpl; tauto|].
  repeat split; vm_compute; discriminate.
Defined.

Lemma insert_desc_head (x : Opportunity) (l : list Opportunity) :
  Forall (roi_desc x) l -> insert_desc x l = x :: l.
Proof.
  intros H. destruct l as [|y rest]; [reflexivity|].
  apply Forall_inv in H. unfold roi_desc in H. simpl.
  destruct (Qlt_bool (expected_roi x) (expected_roi y)) eqn:E;
    [|reflexivity].
  apply Qlt_bool_true in E. exfalso. lra.
Qed.

Lemma filter_insert_desc (keep : Opportunity -> bool) (x : Opportunity)
    (l : list Opportunity) :
  StronglySorted roi_desc l ->
  filter keep (insert_desc x l)
  = if keep x then insert_desc x (filter keep l) else filter keep l.
Proof.
  induction 1 as [|y rest Hsorted IH Hall]; simpl.
  - now destruct (keep x).
  - destruct (Qlt_bool (expected_roi x) (expected_roi y)) eqn:E.
    + simpl. rewrite IH. destruct (keep y), (keep x); try reflexivity.
      simpl. now rewrite E.
    + apply Qlt_bool_false in E. simpl.
      destruct (keep x) eqn:Ex; [|reflexivity].
      symmetry. apply (insert_desc_head x (filter keep (y :: rest))).
      apply Forall_forall. intros z Hz. apply filter_In in Hz.
      destruct Hz as [[<- | Hz] _]; [exact E|].
      rewrite Forall_forall in Hall.
      apply (roi_desc_trans x y z E (Hall z Hz)).
Qed.

(** X7. Filtering and ranking commute: [YieldStrategy.scan_opportunities],
    which filters first and sorts afterwards, returns the same list as
    ranking all formatted opportunities first and filtering the ranked
    list. *)
Theorem scan_opportunities_filter_commutes :
  forall opportunities : list Opportunity,
    scan_opportunities (Ok opportunities)
    = _filter_opportunities (sorted_by_expected_roi_desc opportunities).
Proof.
  intros opportunities. unfold scan_opportunities, _filter_opportunities.
  cbn zeta. induction opportunities as [|x rest IH]; [reflexivity|].
  simpl sorted_by_expected_roi_desc.
  rewrite filter_insert_desc by apply sorted_is_sorted.
  simpl filter. destruct (passes_filter x).
  - simpl. now rewrite IH.
  - exact IH.
Qed.

Lemma extend_all_raises (before after : list (result (list Opportunity)))
    (msg : string) :
  Forall (fun scan => exists found, scan = Ok found) before ->
  extend_all (before ++ Raise msg :: after) = Raise msg.
Proof.
  induction 1 as [|scan rest [found ->] _ IH]; [reflexivity|].
  simpl. now rewrite IH.
Qed.

(** X8. [EnhancedTradingAgent.scan_all_opportunities] has no failure
    isolation: as soon as one strategy's scan raises, the whole scan raises
    that exception and the opportunities found by the other strategies
    (before or after it) are lost. *)
Theorem scan_all_opportunities_propagates_failure :
  forall (before after : list (result (list Opportunity))) (msg : string),
    Forall (fun scan => exists found, scan = Ok found) before ->
    scan_all_opportunities (before ++ Raise msg :: after) = Raise msg.
Proof.
  intros before after msg Hbefore. unfold scan_all_opportunities.
  now rewrite (extend_all_raises before after msg Hbefore).
Qed.

Lemma scan_all_opportunities_propagates_failure_witness :
  scan_all_opportunities
    [Ok [farm_a; farm_c]; Raise "NameError: CentrifugeAnalyzer"; Ok [farm_b]]
  = Raise "NameError: CentrifugeAnalyzer".
Proof.
  apply (scan_all_opportunities_propagates_failure
           [Ok [farm_a; farm_c]] [Ok [farm_b]]).
  repeat constructor. now exists [farm_a; farm_c].
Defined.

End YieldStrategyFilter.

Section EmissionRateValues.
Import APRCalculator.

Lemma emission_rate_percent_nonneg (emission total alloc : Z) (price tvl : Q) :
  (0 <= emission)%Z -> (0 < total)%Z -> (0 <= alloc)%Z ->
  0 <= price -> 0 < tvl ->
  0 <= emission_rate_percent emission total alloc price tvl.
Proof.
  intros He Ht Ha Hp Htvl. unfold emission_rate_percent.
  assert (He' : 0 <= inject_Z emission)
    by (change 0 with (inject_Z 0); now rewrite <- Zle_Qle).
  assert (Ha' : 0 <= inject_Z alloc)
    by (change 0 with (inject_Z 0); now rewrite <- Zle_Qle).
  assert (Ht' : 0 <= / inject_Z total).
  { apply Qinv_le_0_compat. change 0 with (inject_Z 0).
    rewrite <- Zle_Qle. lia. }
  unfold Qdiv.
  repeat apply Qmult_le_0_compat; try assumption; try discriminate.
  apply Qinv_le_0_compat. now apply Qlt_le_weak.
Qed.

(** The three emission-weighted computations share one body. *)
Lemma emission_body_value (prefix : string) (emission total alloc : Z)
    (price tvl : Q) :
  total <> 0%Z -> ~ tvl == 0 ->
  exists apr,
    reraise prefix
      (if Qeq_bool (inject_Z total) 0 || Qeq_bool tvl 0
       then Ok 0
       else
         yearly <-
           decimal_div (inject_Z emission * BLOCKS_PER_YEAR * inject_Z alloc)
                       (inject_Z total) ;;
         yearly_usd <- decimal_div (yearly * price) PRECISION ;;
         ratio <- decimal_div yearly_usd tvl ;;
         Ok (ratio * 100)) = Ok apr /\
    apr == emission_rate_percent emission total alloc price tvl.
Proof.
  intros Ht Htvl.
  assert (Ht' := inject_Z_nonzero _ Ht).
  assert (Hprec : ~ PRECISION == 0) by (intros H; discriminate H).
  rewrite (Qeq_bool_false _ Ht'), (Qeq_bool_false _ Htvl). cbn [orb].
  rewrite (decimal_div_ok _ _ Ht'). cbn [bind].
  rewrite (decimal_div_ok _ _ Hprec). cbn [bind].
  rewrite (decimal_div_ok _ _ Htvl). cbn [bind reraise].
  eexists. split; [reflexivity|].
  unfold emission_rate_percent, BLOCKS_PER_YEAR, PRECISION.
  field. split; assumption.
Qed.

(** X9. Whenever the contract calls return, the allocation total is not 0
    and the TVL is not 0, each emission-weighted computation returns (it
    raises no division fault) the rate
    100 * emission * blocksPerYear * (alloc / total) * price / 1e18 / tvl;
    for non-negative inputs this rate is non-negative. *)
Theorem emission_rates_value :
  (forall pid pool_info masterchef cake_price pool_tvl cake total,
     cakePerBlock masterchef = Ok cake ->
     totalAllocPoint masterchef = Ok total ->
     total <> 0%Z -> ~ pool_tvl == 0 ->
     exists apr,
       calculate_pancake_apr pid pool_info masterchef cake_price pool_tvl
       = Ok apr /\
       apr == emission_rate_percent cake total (allocPoint pool_info)
                cake_price pool_tvl /\
       ((0 <= cake)%Z -> (0 < total)%Z -> (0 <= allocPoint pool_info)%Z ->
        0 <= cake_price -> 0 < pool_tvl -> 0 <= apr)) /\
  (forall pid pool_info masterchef bsw_price pool_tvl bsw total,
     bswPerBlock masterchef = Ok bsw ->
     totalAllocPoint masterchef = Ok total ->
     total <> 0%Z -> ~ pool_tvl == 0 ->
     exists apr,
       calculate_biswap_apr pid pool_info masterchef bsw_price pool_tvl
       = Ok apr /\
       apr == emission_rate_percent bsw total (allocPoint pool_info)
                bsw_price pool_tvl /\
       ((0 <= bsw)%Z -> (0 < total)%Z -> (0 <= allocPoint pool_info)%Z ->
        0 <= bsw_price -> 0 < pool_tvl -> 0 <= apr)) /\
  (forall pid fairlaunch tvl alpaca_price pool_info total emission,
     poolInfo fairlaunch pid = Ok pool_info ->
     fl_totalAllocPoint fairlaunch = Ok total ->
     alpacaPerBlock fairlaunch = Ok emission ->
     total <> 0%Z -> ~ tvl == 0 ->
     exists apy,
       calculate_alpaca_reward_apy pid fairlaunch tvl alpaca_price = Ok apy /\
       apy == emission_rate_percent emission total (allocPoint pool_info)
                alpaca_price tvl /\
       ((0 <= emission)%Z -> (0 < total)%Z -> (0 <= allocPoint pool_info)%Z ->
        0 <= alpaca_price -> 0 < tvl -> 0 <= apy)).
Proof.
  split; [|split].
  - intros pid pool_info masterchef price tvl emission total Hc Ht Hnz Htvl.
    unfold calculate_pancake_apr. rewrite Hc, Ht. cbn [bind].
    destruct (emission_body_value "Error calculating PancakeSwap APR: "
                emission total (allocPoint pool_info) price tvl Hnz Htvl)
      as [apr [Hret Hval]].
    exists apr. split; [exact Hret|]. split; [exact Hval|].
    intros. rewrite Hval. now apply emission_rate_percent_nonneg.
  - intros pid pool_info masterchef price tvl emission total Hc Ht Hnz Htvl.
    unfold calculate_biswap_apr. rewrite Hc, Ht. cbn [bind].
    destruct (emission_body_value "Error calculating Biswap APR: "
                emission total (allocPoint pool_info) price tvl Hnz Htvl)
      as [apr [Hret Hval]].
    exists apr. split; [exact Hret|]. split; [exact Hval|].
    intros. rewrite Hval. now apply emission_rate_percent_nonneg.
  - intros pid fairlaunch tvl price pool_info total emission
      Hp Ht He Hnz Htvl.
    unfold calculate_alpaca_reward_apy. rewrite Hp, Ht, He. cbn [bind].
    destruct (emission_body_value "Error calculating Alpaca reward APY: "
                emission total (allocPoint pool_info) price tvl Hnz Htvl)
      as [apr [Hret Hval]].
    exists apr. split; [exact Hret|]. split; [exact Hval|].
    intros. rewrite Hval. now apply emission_rate_percent_nonneg.
Qed.

Lemma emission_rates_value_witness :
  exists apr,
    calculate_pancake_apr 3 (mkPoolInfo "0x0eD7" 100%Z) cake_farm 2.5 1000000
    = Ok apr /\
    apr == emission_rate_percent 40000000000000000000 1000 100 2.5 1000000.
Proof.
  destruct (proj1 emission_rates_value 3%nat (mkPoolInfo "0x0eD7" 100%Z)
              cake_farm 2.5 1000000 40000000000000000000%Z 1000%Z
              eq_refl eq_refl)
    as [apr [Hret [Hval _]]].
  - discriminate.
  - intros H. discriminate H.
  - exists apr. split; assumption.
Defined.

(** X10. For a vault whose debt does not exceed its deposits
    (0 <= vaultDebtVal <= totalToken, totalToken > 0) the base yield is
    returned and lies between 0 and the 15 percent ceiling. *)
Theorem calculate_alpaca_base_apy_bounds :
  forall (vault_contract : AlpacaVault) (token debt : Z),
    totalToken vault_contract = Ok token ->
    vaultDebtVal vault_contract = Ok debt ->
    (0 <= debt <= token)%Z -> (0 < token)%Z ->
    exists apy,
      calculate_alpaca_base_apy vault_contract = Ok apy /\
      0 <= apy <= 15.
Proof.
  intros vault token debt Ht Hd [Hd0 Hdt] Hpos.
  destruct (calculate_alpaca_base_apy_value vault token debt Ht Hd)
    as [apy [Hret Hval]]; [lia|].
  exists apy. split; [exact Hret|]. rewrite Hval.
  assert (Htq : 0 < inject_Z token)
    by (change 0 with (inject_Z 0); now rewrite <- Zlt_Qlt).
  assert (Hdq : 0 <= inject_Z debt)
    by (change 0 with (inject_Z 0); now rewrite <- Zle_Qle).
  assert (Hle : inject_Z debt <= inject_Z token) by now rewrite <- Zle_Qle.
  assert (Hlo : 0 <= inject_Z debt / inject_Z token).
  { apply Qle_shift_div_l; [exact Htq | lra]. }
  assert (Hhi : inject_Z debt / inject_Z token <= 1).
  { apply Qle_shift_div_r; [exact Htq | lra]. }
  split; lra.
Qed.

Lemma calculate_alpaca_base_apy_bounds_witness :
  exists apy,
    calculate_alpaca_base_apy quarter_lent_vault = Ok apy /\ 0 <= apy <= 15.
Proof.
  apply (calculate_alpaca_base_apy_bounds quarter_lent_vault
           100000000000000000000 25000000000000000000);
    [reflexivity | reflexivity | lia | lia].
Defined.

End EmissionRateValues.

Section ProtocolMetrics.
Import DataFetcher.

(** X11. The percentage change is the exact inverse of applying a
    percentage: for a nonzero old value, [old * (1 + change/100)] gives
    the new value back; for an old value of 0 the change is reported as 0
    instead of a division fault. *)
Theorem calculate_change_round_trip :
  (forall old_value new_value : Q,
     old_value == 0 -> _calculate_change old_value new_value = 0) /\
  (forall old_value new_value : Q,
     ~ old_value == 0 ->
     old_value * (1 + _calculate_change old_value new_value / 100)
     == new_value).
Proof.
  split; intros old new H; unfold _calculate_change.
  - apply Qeq_eq_bool in H. now rewrite H.
  - rewrite (Qeq_bool_false _ H). field. exact H.
Qed.

Lemma calculate_change_round_trip_witness :
  _calculate_change 0 5 = 0 /\
  2000000000 * (1 + _calculate_change 2000000000 2100000000 / 100)
  == 2100000000.
Proof.
  split.
  - apply (proj1 calculate_change_round_trip 0 5). reflexivity.
  - apply (proj2 calculate_change_round_trip 2000000000 2100000000).
    intros H. discriminate H.
Defined.

Lemma protocol_id_nonempty (key id : string) :
  dict_get protocol_ids key = Some id -> String.eqb id "" = false.
Proof.
  unfold protocol_ids, dict_get.
  repeat match goal with
         | |- context [String.eqb ?a key] => destruct (String.eqb a key)
         end; intros H; try discriminate H; now injection H as <-.
Qed.

(** X12. [get_protocol_metrics] raises [Unknown protocol: ...] for a name
    that is none of pancakeswap, venus, alpaca, biswap (in any letter
    case), without looking at the network; and for a known protocol it
    raises when DefiLlama reports fewer than two TVL samples. *)
Theorem get_protocol_metrics_errors :
  (forall http_get protocol,
     dict_get protocol_ids (lower protocol) = None ->
     get_protocol_metrics http_get protocol
     = Raise ("Unknown protocol: " ++ protocol)) /\
  (forall http_get protocol protocol_id data,
     dict_get protocol_ids (lower protocol) = Some protocol_id ->
     http_get (DEFILLAMA_API ++ "/protocol/" ++ protocol_id) = Ok data ->
     (List.length (tvl_series data) < 2)%nat ->
     get_protocol_metrics http_get protocol
     = Raise "list index out of range").
Proof.
  split.
  - intros http_get protocol Hid. unfold get_protocol_metrics.
    now rewrite Hid.
  - intros http_get protocol id data Hid Hget Hlen.
    unfold get_protocol_metrics.
    rewrite Hid, (protocol_id_nonempty _ _ Hid), Hget. cbn [bind].
    destruct (tvl_series data) as [|x [|y rest]]; [reflexivity|reflexivity|].
    simpl in Hlen. lia.
Qed.

Lemma get_protocol_metrics_errors_witness :
  get_protocol_metrics llama_three_samples "uniswap"
  = Raise "Unknown protocol: uniswap" /\
  get_protocol_metrics llama_one_sample "Venus"
  = Raise "list index out of range".
Proof.
  split.
  - apply (proj1 get_protocol_metrics_errors). reflexivity.
  - apply (proj2 get_protocol_metrics_errors llama_one_sample "Venus" "venus"
             (mkProtocolData [2100000000] None));
      [reflexivity | reflexivity | simpl; lia].
Defined.

(** X13. For a known protocol with at least two TVL samples,
    [get_protocol_metrics] reports the last sample as the TVL, the
    percentage change from the sample before it as the 24h change, and the
    market capitalisation over the last sample as the ratio (0 when the
    response has no market capitalisation). *)
Theorem get_protocol_metrics_value :
  forall http_get protocol protocol_id data older previous latest,
    dict_get protocol_ids (lower protocol) = Some protocol_id ->
    http_get (DEFILLAMA_API ++ "/protocol/" ++ protocol_id) = Ok data ->
    tvl_series data = (older ++ [previous; latest])%list ->
    mcap data = None \/ ~ latest == 0 ->
    exists metrics,
      get_protocol_metrics http_get protocol = Ok metrics /\
      metrics_tvl metrics = latest /\
      tvl_change_24h metrics = _calculate_change previous latest /\
      mcap_tvl_ratio metrics
      == match mcap data with
         | Some cap => cap / latest
         | None => 0
         end.
Proof.
  intros http_get protocol id data older previous latest
    Hid Hget Hseries Hcap.
  unfold get_protocol_metrics.
  rewrite Hid, (protocol_id_nonempty _ _ Hid), Hget. cbn [bind].
  unfold list_item_from_end. rewrite Hseries, rev_app_distr.
  cbn [rev app Nat.sub list_item nth_error bind].
  destruct (mcap data) as [cap|].
  - destruct Hcap as [Hcap | Hcap]; [discriminate Hcap|].
    destruct (Qeq_bool cap 0) eqn:Ecap; cbn [bind].
    + eexists. split; [reflexivity|]. cbn.
      split; [reflexivity|]. split; [reflexivity|].
      apply Qeq_bool_eq in Ecap. rewrite Ecap. field. exact Hcap.
    + unfold float_div. rewrite (Qeq_bool_false _ Hcap). cbn [bind].
      eexists. split; [reflexivity|]. cbn.
      split; [reflexivity|]. split; reflexivity.
  - cbn [bind]. eexists. split; [reflexivity|]. cbn.
    split; [reflexivity|]. split; reflexivity.
Qed.

Lemma get_protocol_metrics_value_witness :
  exists metrics,
    get_protocol_metrics llama_three_samples "PancakeSwap" = Ok metrics /\
    metrics_tvl metrics = 2100000000 /\
    tvl_change_24h metrics = _calculate_change 2000000000 2100000000 /\
    mcap_tvl_ratio metrics == 700000000 / 2100000000.
Proof.
  apply (get_protocol_metrics_value llama_three_samples "PancakeSwap"
           "pancakeswap"
           (mkProtocolData [1900000000; 2000000000; 2100000000]
              (Some 700000000))
           [1900000000] 2000000000 2100000000);
    [reflexivity | reflexivity | reflexivity |].
  right. intros H. discriminate H.
Defined.

End ProtocolMetrics.

Section ResolvedPrices.
Import PriceCalculator.

(** What a price returned by the single-pair lookup was computed from. *)
Lemma price_from_pair_inv (chain : Chain) (a b : string) (p : Q) :
  _get_token_price_from_pair chain a b = Some p ->
  exists pair res da db,
    getPair chain a b = Ok pair /\
    getReserves chain pair = Ok res /\
    decimals chain a = Ok da /\
    decimals chain b = Ok db /\
    _reserve0 res <> 0%Z /\
    _reserve1 res <> 0%Z /\
    p = (inject_Z (_reserve1 res) / inject_Z (10 ^ Z.of_N db))
        / (inject_Z (_reserve0 res) / inject_Z (10 ^ Z.of_N da)).
Proof.
  unfold _get_token_price_from_pair, price_from_pair_body.
  destruct (getPair chain a b) as [pair|] eqn:Hp; [|discriminate].
  cbn [bind].
  destruct (String.eqb pair ZERO_ADDRESS); [discriminate|].
  destruct (getReserves chain pair) as [res|] eqn:Hr; [|discriminate].
  cbn [bind].
  destruct (decimals chain a) as [da|]; [|discriminate]. cbn [bind].
  destruct (decimals chain b) as [db|]; [|discriminate]. cbn [bind].
  rewrite !(decimal_div_ok _ _ (pow10_nonzero _)). cbn [bind].
  destruct (Qeq_bool (inject_Z (_reserve0 res) / inject_Z (10 ^ Z.of_N da)) 0)
    eqn:E0; [discriminate|].
  destruct (Qeq_bool (inject_Z (_reserve1 res) / inject_Z (10 ^ Z.of_N db)) 0)
    eqn:E1; [discriminate|].
  cbn [orb]. apply Qeq_bool_neq in E0, E1.
  rewrite (decimal_div_ok _ _ E0). cbn [bind].
  intros H. injection H as <-.
  exists pair, res, da, db. repeat split; try reflexivity; try assumption.
  - intros H0. apply E0. rewrite H0. reflexivity.
  - intros H1. apply E1. rewrite H1. reflexivity.
Qed.

Lemma pow10_pos (d : N) : 0 < inject_Z (10 ^ Z.of_N d).
Proof.
  change 0 with (inject_Z 0). rewrite <- Zlt_Qlt.
  apply Z.pow_pos_nonneg; lia.
Qed.

Lemma scaled_reserve_pos (r : Z) (d : N) :
  (0 <= r)%Z -> r <> 0%Z -> 0 < inject_Z r / inject_Z (10 ^ Z.of_N d).
Proof.
  intros H0 Hnz. apply Qlt_shift_div_l; [apply pow10_pos|].
  rewrite Qmult_0_l. change 0 with (inject_Z 0). rewrite <- Zlt_Qlt. lia.
Qed.

Lemma price_from_pair_pos (chain : Chain) (a b : string) (p : Q) :
  reserves_nonneg chain ->
  _get_token_price_from_pair chain a b = Some p -> 0 < p.
Proof.
  intros Hnn Hp.
  destruct (price_from_pair_inv chain a b p Hp)
    as [pair [res [da [db [_ [Hr [_ [_ [H0 [H1 ->]]]]]]]]]].
  destruct (Hnn pair res Hr) as [Hn0 Hn1].
  assert (P0 := scaled_reserve_pos _ da Hn0 H0).
  assert (P1 := scaled_reserve_pos _ db Hn1 H1).
  apply Qlt_shift_div_l; [exact P0|]. now rewrite Qmult_0_l.
Qed.

(** X14. On a chain whose pairs report non-negative reserves, every price
    that [PriceCalculator.get_token_price] returns is strictly positive,
    whether it was resolved directly or through WBNB: the resolution never
    returns 0 or a negative price. *)
Theorem get_token_price_positive :
  forall (chain : Chain) (token_address : string) (price : Q),
    reserves_nonneg chain ->
    get_token_price chain token_address = Ok price ->
    0 < price.
Proof.
  intros chain token price Hnn. unfold get_token_price.
  destruct (_get_token_price_from_pair chain token BUSD) as [direct|] eqn:Hd.
  - intros H. injection H as <-. exact (price_from_pair_pos _ _ _ _ Hnn Hd).
  - destruct (_get_token_price_from_pair chain token WBNB) as [leg1|] eqn:H1;
      [|discriminate].
    destruct (_get_token_price_from_pair chain WBNB BUSD) as [leg2|] eqn:H2;
      [|discriminate].
    intros H. injection H as <-.
    apply Qmult_lt_0_compat;
      [exact (price_from_pair_pos _ _ _ _ Hnn H1)
      | exact (price_from_pair_pos _ _ _ _ Hnn H2)].
Qed.

Lemma wbnb_busd_chain_nonneg : reserves_nonneg wbnb_busd_chain.
Proof.
  intros pair res. simpl.
  destruct (String.eqb pair WBNB_BUSD_PAIR); [|discriminate].
  intros H. injection H as <-. simpl. lia.
Qed.

Lemma get_token_price_positive_witness :
  exists price,
    get_token_price wbnb_busd_chain WBNB = Ok price /\ 0 < price.
Proof.
  eexists. split; [vm_compute; reflexivity|].
  apply (get_token_price_positive wbnb_busd_chain WBNB).
  - exact wbnb_busd_chain_nonneg.
  - vm_compute. reflexivity.
Defined.

(** X15. A pair with a zero reserve on either side yields no price: the
    single-pair lookup returns [None] (and so do a missing pair and any
    failing call), never a price of 0 and never an exception. *)
Theorem price_from_pair_zero_reserve :
  forall (chain : Chain) (a b pair : string) (res : Reserves),
    getPair chain a b = Ok pair ->
    getReserves chain pair = Ok res ->
    _reserve0 res = 0%Z \/ _reserve1 res = 0%Z ->
    _get_token_price_from_pair chain a b = None.
Proof.
  intros chain a b pair res Hp Hr Hzero.
  destruct (_get_token_price_from_pair chain a b) as [p|] eqn:E;
    [|reflexivity].
  destruct (price_from_pair_inv chain a b p E)
    as [pair' [res' [_ [_ [Hp' [Hr' [_ [_ [H0 [H1 _]]]]]]]]]].
  rewrite Hp in Hp'. injection Hp' as <-.
  rewrite Hr in Hr'. injection Hr' as <-.
  destruct Hzero; contradiction.
Qed.

Lemma price_from_pair_zero_reserve_witness :
  _get_token_price_from_pair
    (mkChain (fun _ _ => Ok WBNB_BUSD_PAIR)
             (fun _ => Ok (mkReserves 0 300000000000000000000 1700000000))
             (fun _ => Ok 18%N))
    WBNB BUSD = None.
Proof.
  apply (price_from_pair_zero_reserve _ WBNB BUSD WBNB_BUSD_PAIR
           (mkReserves 0 300000000000000000000 1700000000));
    [reflexivity | reflexivity | left; reflexivity].
Defined.

Lemma int_div_inv (a b : Z) (q : Q) :
  int_div a b = Ok q -> b <> 0%Z /\ q = inject_Z a / inject_Z b.
Proof.
  unfold int_div. destruct (b =? 0)%Z eqn:E; [discriminate|].
  intros H. injection H as <-. split; [|reflexivity].
  now apply Z.eqb_neq.
Qed.

(** X16. [calculate_price_impact] raises for an input amount of 0 whatever
    the router answers (the effective price divides by the amount); and on
    a router that quotes non-negative amounts, every impact it returns is
    non-negative. *)
Theorem calculate_price_impact_edges :
  (forall (router : Router) (token_in token_out : string),
     exists msg,
       calculate_price_impact router token_in token_out 0%Z = Raise msg) /\
  (forall (router : Router) (token_in token_out : string) (amount_in : Z)
          (impact : Q),
     quotes_nonneg router ->
     calculate_price_impact router token_in token_out amount_in = Ok impact ->
     0 <= impact).
Proof.
  split.
  - intros router tin tout. unfold calculate_price_impact. cbn zeta.
    destruct (getAmountsOut router 1000 [tin; tout]) as [small|m];
      [|now exists m]. cbn [bind].
    destruct (getAmountsOut router 0 [tin; tout]) as [actual|m];
      [|now exists m]. cbn [bind].
    destruct (list_item small 1) as [s|m]; [|now exists m]. cbn [bind].
    destruct (int_div s 1000) as [ps|m]; [|now exists m]. cbn [bind].
    destruct (list_item actual 1) as [x|m]; [|now exists m]. cbn [bind].
    now exists "division by zero".
  - intros router tin tout amount impact Hnn.
    unfold calculate_price_impact. cbn zeta.
    destruct (getAmountsOut router 1000 [tin; tout]) as [small|m] eqn:Hs;
      [|discriminate]. cbn [bind].
    destruct (getAmountsOut router amount [tin; tout]) as [actual|m];
      [|discriminate]. cbn [bind].
    destruct (list_item small 1) as [s|m] eqn:Hitem; [|discriminate].
    cbn [bind].
    destruct (int_div s 1000) as [ps|m] eqn:Hps; [|discriminate]. cbn [bind].
    destruct (list_item actual 1) as [x|m]; [|discriminate]. cbn [bind].
    destruct (int_div x amount) as [pa|m]; [|discriminate]. cbn [bind].
    unfold float_div. destruct (Qeq_bool ps 0) eqn:Ez; [discriminate|].
    cbn [bind].
    generalize (Qabs_nonneg (pa - ps)). generalize (Qabs (pa - ps)).
    intros distance Habs H. injection H as <-.
    apply Qeq_bool_neq in Ez.
    assert (Hs0 : (0 <= s)%Z).
    { assert (Hall := Hnn _ _ _ Hs). rewrite Forall_forall in Hall.
      apply Hall. unfold list_item in Hitem.
      destruct (nth_error small 1) as [s'|] eqn:Hn; [|discriminate].
      injection Hitem as ->. exact (nth_error_In _ _ Hn). }
    destruct (int_div_inv _ _ _ Hps) as [_ ->].
    assert (Hpos : 0 <= inject_Z s / inject_Z 1000).
    { apply Qle_shift_div_l; [reflexivity|]. rewrite Qmult_0_l.
      change 0 with (inject_Z 0). now rewrite <- Zle_Qle. }
    assert (Hpos' : 0 < inject_Z s / inject_Z 1000).
    { apply Qle_lt_or_eq in Hpos. destruct Hpos as [Hlt | Heq];
        [exact Hlt | exfalso; apply Ez; symmetry; exact Heq]. }
    apply Qmult_le_0_compat; [|discriminate].
    apply Qle_shift_div_l; [exact Hpos'|]. rewrite Qmult_0_l.
    exact Habs.
Qed.

Lemma calculate_price_impact_edges_witness :
  exists impact,
    calculate_price_impact flat_router WBNB BUSD 5000%Z = Ok impact /\
    0 <= impact.
Proof.
  eexists. split; [vm_compute; reflexivity|].
  apply (proj2 calculate_price_impact_edges flat_router WBNB BUSD 5000%Z).
  - intros amount path amounts H. simpl in H.
    destruct (amount <? 0)%Z eqn:E; [discriminate H|].
    injection H as <-. apply Z.ltb_ge in E.
    repeat constructor; lia.
  - vm_compute. reflexivity.
Defined.

End ResolvedPrices.

Section ProtocolHealth.
Import RiskCalculator.

Lemma base_score_of_bounds (protocol : string) :
  0.5 <= base_score_of protocol <= 0.9.
Proof.
  unfold base_score_of, PROTOCOL_BASE_SCORES, dict_get.
  repeat match goal with
         | |- context [String.eqb ?a ?b] => destruct (String.eqb a b)
         end; lra.
Qed.

(** The health score, component by component. *)
Lemma calculate_protocol_health_score_value (protocol : string)
    (tvl_history : list Q) (user_count days_since_audit : Z) :
  growth_defined tvl_history ->
  calculate_protocol_health_score protocol tvl_history user_count
    days_since_audit
  = Ok (base_score_of protocol * 0.4
        + Qmin 1.0 (Qmax 0.0 ((tvl_growth_of tvl_history + 0.5) / 1.5)) * 0.2
        + Qmin 1.0 (inject_Z user_count / 100000) * 0.2
        + Qmax 0.0 (Qmin 1.0 (inject_Z days_since_audit / 365)) * 0.2).
Proof.
  intros Hdef. unfold calculate_protocol_health_score, tvl_growth_of.
  fold (base_score_of protocol).
  destruct (1 <? List.length tvl_history)%nat eqn:Elen.
  - destruct Hdef as [Hlen | Hhd].
    + apply Nat.ltb_lt in Elen. lia.
    + unfold float_div. rewrite (Qeq_bool_false _ Hhd). reflexivity.
  - reflexivity.
Qed.

(** X17. With a non-negative user count, and a TVL history that has at
    most one sample or a nonzero first sample, the protocol health score
    is returned and lies between 0.2 and 0.96, whatever the protocol name,
    the growth and the audit age. *)
Theorem calculate_protocol_health_score_bounds :
  forall (protocol : string) (tvl_history : list Q)
         (user_count days_since_audit : Z),
    (0 <= user_count)%Z ->
    growth_defined tvl_history ->
    exists health_score,
      calculate_protocol_health_score protocol tvl_history user_count
        days_since_audit = Ok health_score /\
      0.2 <= health_score <= 0.96.
Proof.
  intros protocol hist users days Husers Hdef.
  rewrite (calculate_protocol_health_score_value _ _ _ _ Hdef).
  eexists. split; [reflexivity|].
  assert (Hb := base_score_of_bounds protocol).
  assert (Hu : 0 <= inject_Z users / 100000).
  { apply Qle_shift_div_l; [reflexivity|]. rewrite Qmult_0_l.
    change 0 with (inject_Z 0). now rewrite <- Zle_Qle. }
  generalize dependent (inject_Z users / 100000).
  generalize (inject_Z days / 365).
  generalize ((tvl_growth_of hist + 0.5) / 1.5).
  generalize dependent (base_score_of protocol).
  intros b Hb g a u Hu.
  generalize (Q.max_spec 0.0 g) (Q.min_spec 1.0 (Qmax 0.0 g))
             (Q.min_spec 1.0 u)
             (Q.min_spec 1.0 a) (Q.max_spec 0.0 (Qmin 1.0 a)).
  generalize (Qmin 1.0 (Qmax 0.0 g)) (Qmax 0.0 g) (Qmin 1.0 u)
             (Qmax 0.0 (Qmin 1.0 a)) (Qmin 1.0 a).
  intros g2 g1 u1 a2 a1
    [[? ?] | [? ?]] [[? ?] | [? ?]] [[? ?] | [? ?]]
    [[? ?] | [? ?]] [[? ?] | [? ?]]; split; lra.
Qed.

Lemma calculate_protocol_health_score_bounds_witness :
  exists health_score,
    calculate_protocol_health_score "Venus" [1500000000; 2100000000]
      45000 200 = Ok health_score /\
    0.2 <= health_score <= 0.96.
Proof.
  apply (calculate_protocol_health_score_bounds "Venus"
           [1500000000; 2100000000] 45000 200).
  - lia.
  - right. intros H. discriminate H.
Defined.

(** X18. A TVL history of two or more samples whose first sample is 0
    makes the protocol health score raise (a division by zero wrapped as
    [Error calculating protocol health]); it is not scored as missing
    growth. *)
Theorem calculate_protocol_health_score_zero_start :
  forall (protocol : string) (tvl_history : list Q)
         (user_count days_since_audit : Z),
    (2 <= List.length tvl_history)%nat ->
    hd 0 tvl_history == 0 ->
    exists msg,
      calculate_protocol_health_score protocol tvl_history user_count
        days_since_audit
      = Raise ("Error calculating protocol health: " ++ msg).
Proof.
  intros protocol hist users days Hlen Hhd.
  unfold calculate_protocol_health_score.
  assert (E : (1 <? List.length hist)%nat = true) by (apply Nat.ltb_lt; lia).
  rewrite E. unfold float_div.
  apply Qeq_eq_bool in Hhd. rewrite Hhd. now eexists.
Qed.

Lemma calculate_protocol_health_score_zero_start_witness :
  exists msg,
    calculate_protocol_health_score "alpaca" [0; 120000; 300000] 10 30
    = Raise ("Error calculating protocol health: " ++ msg).
Proof.
  apply (calculate_protocol_health_score_zero_start "alpaca"
           [0; 120000; 300000] 10 30).
  - simpl. lia.
  - reflexivity.
Defined.

(** X19. The health score never falls when [days_since_audit] grows: the
    audit term is [days/365] clamped to [0,1], so an audit a year old or
    older adds the full 0.2 that a fresh audit (0 days or less) does not
    add. *)
Theorem calculate_protocol_health_score_audit_age :
  forall (protocol : string) (tvl_history : list Q)
         (user_count days days' : Z),
    growth_defined tvl_history ->
    (days <= days')%Z ->
    exists score score',
      calculate_protocol_health_score protocol tvl_history user_count days
      = Ok score /\
      calculate_protocol_health_score protocol tvl_history user_count days'
      = Ok score' /\
      score <= score' /\
      ((days <= 0)%Z -> (365 <= days')%Z -> score' == score + 0.2).
Proof.
  intros protocol hist users d d' Hdef Hle.
  rewrite !(calculate_protocol_health_score_value _ _ _ _ Hdef).
  do 2 eexists. split; [reflexivity|]. split; [reflexivity|].
  assert (Hq : inject_Z d / 365 <= inject_Z d' / 365).
  { apply Qmult_le_compat_r; [now rewrite <- Zle_Qle | discriminate]. }
  assert (H0 : (d <= 0)%Z -> inject_Z d / 365 <= 0).
  { intros H. apply Qle_shift_div_r; [reflexivity|]. rewrite Qmult_0_l.
    change 0 with (inject_Z 0). now rewrite <- Zle_Qle. }
  assert (H1 : (365 <= d')%Z -> 1 <= inject_Z d' / 365).
  { intros H. apply Qle_shift_div_l; [reflexivity|]. rewrite Qmult_1_l.
    change 365 with (inject_Z 365). now rewrite <- Zle_Qle. }
  generalize dependent (inject_Z d / 365).
  generalize dependent (inject_Z d' / 365).
  generalize (base_score_of protocol * 0.4
              + Qmin 1.0 (Qmax 0.0 ((tvl_growth_of hist + 0.5) / 1.5)) * 0.2
              + Qmin 1.0 (inject_Z users / 100000) * 0.2).
  intros rest a' H1 a Hq H0.
  generalize (Q.min_spec 1.0 a) (Q.max_spec 0.0 (Qmin 1.0 a))
             (Q.min_spec 1.0 a') (Q.max_spec 0.0 (Qmin 1.0 a')).
  generalize (Qmax 0.0 (Qmin 1.0 a)) (Qmin 1.0 a)
             (Qmax 0.0 (Qmin 1.0 a')) (Qmin 1.0 a').
  intros x2 x1 y2 y1
    [[? ?] | [? ?]] [[? ?] | [? ?]] [[? ?] | [? ?]] [[? ?] | [? ?]];
    (split; [lra | intros Hd Hd'; specialize (H0 Hd); specialize (H1 Hd');
                   lra]).
Qed.

Lemma calculate_protocol_health_score_audit_age_witness :
  exists score score',
    calculate_protocol_health_score "Venus" [1500000000; 2100000000] 45000 0
    = Ok score /\
    calculate_protocol_health_score "Venus" [1500000000; 2100000000] 45000 400
    = Ok score' /\
    score <= score' /\
    ((0 <= 0)%Z -> (365 <= 400)%Z -> score' == score + 0.2).
Proof.
  apply (calculate_protocol_health_score_audit_age "Venus"
           [1500000000; 2100000000] 45000 0 400).
  - right. intros H. discriminate H.
  - lia.
Defined.

End ProtocolHealth.


Section ImpermanentLoss.
Import RiskCalculator.
Local Open Scope R_scope.

Lemma real_div_ok (a b : R) : b <> 0 -> real_div a b = Ok (a / b).
Proof.
  intros Hb. unfold real_div. destruct (Req_dec_T b 0); [contradiction|].
  reflexivity.
Qed.

Lemma price_ratios_positive (h0 h1 : list R) :
  Forall (fun price => 0 < price) h0 ->
  Forall (fun price => 0 < price) h1 ->
  List.length h0 = List.length h1 ->
  exists ratios,
    price_ratios h0 h1 = Ok ratios /\
    Forall (fun ratio => 0 < ratio) ratios /\
    List.length ratios = List.length h0.
Proof.
  intros H0. revert h1. induction H0 as [|t0 rest0 Ht0 _ IH];
    intros h1 H1 Hlen.
  - exists []. repeat split. constructor.
  - destruct H1 as [|t1 rest1 Ht1 H1]; [discriminate Hlen|].
    simpl in Hlen. injection Hlen as Hlen.
    destruct (IH rest1 H1 Hlen) as [ratios [Hret [Hpos Hl]]].
    exists (t1 / t0 :: ratios). simpl.
    rewrite real_div_ok by Lra.lra. cbn [bind]. rewrite Hret. cbn [bind].
    repeat split.
    + constructor; [|exact Hpos].
      apply Rdiv_lt_0_compat; assumption.
    + simpl. now rewrite Hl.
Qed.

Lemma drawdown_step_bounds (peak value : R) :
  0 < peak -> 0 < value -> peak >= value ->
  0 <= (peak - value) / peak < 1.
Proof.
  intros Hp Hv Hge.
  assert (Hinv : 0 < / peak) by now apply Rinv_0_lt_compat.
  split.
  - apply Rmult_le_pos; Lra.lra.
  - replace ((peak - value) / peak) with (1 - value * / peak)
      by (field; Lra.lra).
    assert (0 < value * / peak) by now apply Rmult_lt_0_compat.
    Lra.lra.
Qed.

Lemma drawdown_loop_bounds (values : list R) :
  Forall (fun value => 0 < value) values ->
  forall peak max_drawdown,
    0 < peak -> 0 <= max_drawdown < 1 ->
    exists drawdown,
      drawdown_loop values peak max_drawdown = Ok drawdown /\
      0 <= drawdown < 1.
Proof.
  induction 1 as [|value rest Hv _ IH]; intros peak mdd Hp Hm.
  - exists mdd. split; [reflexivity | exact Hm].
  - simpl.
    set (peak' := if Rlt_dec peak value then value else peak).
    assert (Hp' : 0 < peak' /\ peak' >= value).
    { unfold peak'. destruct (Rlt_dec peak value); split; Lra.lra. }
    destruct Hp' as [Hp' Hge].
    rewrite real_div_ok by Lra.lra. cbn [bind].
    assert (Hd := drawdown_step_bounds peak' value Hp' Hv Hge).
    apply IH; [exact Hp'|].
    unfold Rmax. destruct (Rle_dec mdd ((peak' - value) / peak')); Lra.lra.
Qed.

Lemma drawdown_loop_rising (values : list R) :
  StronglySorted Rle values ->
  forall peak max_drawdown,
    0 < peak -> 0 <= max_drawdown ->
    Forall (fun value => peak <= value) values ->
    drawdown_loop values peak max_drawdown = Ok max_drawdown.
Proof.
  induction 1 as [|value rest Hsorted IH Hall]; intros peak mdd Hp Hm Hge.
  - reflexivity.
  - simpl. apply Forall_inv in Hge as Hhead.
    set (peak' := if Rlt_dec peak value then value else peak).
    assert (Hp' : peak' = value).
    { unfold peak'. destruct (Rlt_dec peak value); Lra.lra. }
    rewrite Hp'. rewrite real_div_ok by Lra.lra. cbn [bind].
    replace ((value - value) / value) with 0 by (field; Lra.lra).
    rewrite Rmax_left by Lra.lra.
    apply IH; [Lra.lra | exact Hm | exact Hall].
Qed.

Lemma max_drawdown_positive (values : list R) :
  values <> [] ->
  Forall (fun value => 0 < value) values ->
  exists drawdown,
    _calculate_max_drawdown values = Ok drawdown /\ 0 <= drawdown < 1.
Proof.
  intros Hne Hpos. destruct values as [|first rest]; [contradiction|].
  unfold _calculate_max_drawdown. cbn [list_item nth_error bind].
  apply drawdown_loop_bounds; [exact Hpos | | Lra.lra].
  now apply Forall_inv in Hpos.
Qed.

Lemma max_drawdown_rising (values : list R) :
  values <> [] ->
  Forall (fun value => 0 < value) values ->
  StronglySorted Rle values ->
  _calculate_max_drawdown values = Ok 0.
Proof.
  intros Hne Hpos Hsorted. destruct values as [|first rest]; [contradiction|].
  unfold _calculate_max_drawdown. cbn [list_item nth_error bind].
  apply drawdown_loop_rising; [exact Hsorted | | Lra.lra |].
  - now apply Forall_inv in Hpos.
  - constructor; [Lra.lra|].
    now apply StronglySorted_inv in Hsorted.
Qed.

(** X20. [_calculate_max_drawdown] raises [IndexError] on an empty series;
    on a non-empty series of positive values it returns a drawdown that is
    at least 0 and strictly below 1; and on a series that never falls it
    returns exactly 0. *)
Theorem calculate_max_drawdown_range :
  _calculate_max_drawdown [] = Raise "list index out of range" /\
  (forall values,
     values <> [] ->
     Forall (fun value => 0 < value) values ->
     exists drawdown,
       _calculate_max_drawdown values = Ok drawdown /\
       0 <= drawdown < 1) /\
  (forall values,
     values <> [] ->
     Forall (fun value => 0 < value) values ->
     StronglySorted Rle values ->
     _calculate_max_drawdown values = Ok 0).
Proof.
  split; [reflexivity|]. split.
  - exact max_drawdown_positive.
  - exact max_drawdown_rising.
Qed.

Lemma calculate_max_drawdown_range_witness :
  (exists drawdown,
     _calculate_max_drawdown [4; 5; 3] = Ok drawdown /\ 0 <= drawdown < 1) /\
  _calculate_max_drawdown [3; 4; 4; 5] = Ok 0.
Proof.
  destruct calculate_max_drawdown_range as [_ [Hrange Hrising]].
  split.
  - apply Hrange; [discriminate|]. repeat constructor; Lra.lra.
  - apply Hrising; [discriminate | |];
      repeat constructor; Lra.lra.
Defined.

Lemma price_ratios_zero (h0 h1 : list R) :
  List.length h0 = List.length h1 ->
  In 0 h0 ->
  exists msg, price_ratios h0 h1 = Raise msg.
Proof.
  revert h1. induction h0 as [|t0 rest0 IH]; intros h1 Hlen Hin.
  - contradiction.
  - destruct h1 as [|t1 rest1]; [discriminate Hlen|].
    simpl in Hlen. injection Hlen as Hlen. simpl.
    unfold real_div at 1. destruct (Req_dec_T t0 0) as [Hz | Hnz].
    + now eexists.
    + cbn [bind]. destruct Hin as [Hin | Hin]; [congruence|].
      destruct (IH rest1 Hlen Hin) as [msg ->]. now eexists.
Qed.

(** X21. [calculate_impermanent_loss_risk] raises
    [Error calculating IL risk: Price history lengths must match] when the
    two histories differ in length, raises on two empty histories (the
    drawdown helper indexes an empty list), and raises when a price of 0
    occurs in the first token's history. *)
Theorem calculate_impermanent_loss_risk_errors :
  (forall h0 h1,
     List.length h0 <> List.length h1 ->
     calculate_impermanent_loss_risk h0 h1
     = Raise "Error calculating IL risk: Price history lengths must match") /\
  calculate_impermanent_loss_risk [] []
  = Raise "Error calculating IL risk: list index out of range" /\
  (forall h0 h1,
     List.length h0 = List.length h1 ->
     In 0 h0 ->
     exists msg, calculate_impermanent_loss_risk h0 h1 = Raise msg).
Proof.
  split; [|split].
  - intros h0 h1 Hlen. unfold calculate_impermanent_loss_risk.
    apply Nat.eqb_neq in Hlen. now rewrite Hlen.
  - reflexivity.
  - intros h0 h1 Hlen Hin. unfold calculate_impermanent_loss_risk.
    rewrite (proj2 (Nat.eqb_eq _ _) Hlen). cbn [negb].
    destruct (price_ratios_zero h0 h1 Hlen Hin) as [msg ->].
    now eexists.
Qed.

Lemma calculate_impermanent_loss_risk_errors_witness :
  calculate_impermanent_loss_risk [300; 310] [1]
  = Raise "Error calculating IL risk: Price history lengths must match" /\
  exists msg, calculate_impermanent_loss_risk [300; 0] [1; 1] = Raise msg.
Proof.
  destruct calculate_impermanent_loss_risk_errors as [Hlen [_ Hzero]].
  split.
  - apply Hlen. simpl. lia.
  - apply Hzero; [reflexivity | simpl; tauto].
Defined.

(** X22. For two non-empty price histories of one length with positive
    prices, the impermanent-loss risk is returned and lies in [0,1]. *)
Theorem calculate_impermanent_loss_risk_bounds :
  forall h0 h1,
    h0 <> [] ->
    List.length h0 = List.length h1 ->
    Forall (fun price => 0 < price) h0 ->
    Forall (fun price => 0 < price) h1 ->
    exists il_risk,
      calculate_impermanent_loss_risk h0 h1 = Ok il_risk /\
      0 <= il_risk <= 1.
Proof.
  intros h0 h1 Hne Hlen H0 H1. unfold calculate_impermanent_loss_risk.
  rewrite (proj2 (Nat.eqb_eq _ _) Hlen). cbn [negb].
  destruct (price_ratios_positive h0 h1 H0 H1 Hlen)
    as [ratios [-> [Hpos Hl]]]. cbn [bind].
  assert (Hne' : ratios <> []).
  { intros ->. destruct h0; [contradiction | discriminate Hl]. }
  destruct (max_drawdown_positive ratios Hne' Hpos)
    as [dd [-> Hdd]]. cbn [bind reraise].
  eexists. split; [reflexivity|].
  assert (Hstd := np_std_nonneg ratios).
  assert (Hv : 0 <= Rmin 1 (np_std ratios) <= 1).
  { split; [apply Rmin_glb; Lra.lra | apply Rmin_l]. }
  assert (Hd : 0 <= Rmin 1 dd <= 1).
  { split; [apply Rmin_glb; Lra.lra | apply Rmin_l]. }
  Lra.lra.
Qed.

Lemma calculate_impermanent_loss_risk_bounds_witness :
  exists il_risk,
    calculate_impermanent_loss_risk [300; 310; 290] [1; 1; 1] = Ok il_risk /\
    0 <= il_risk <= 1.
Proof.
  apply (calculate_impermanent_loss_risk_bounds [300; 310; 290] [1; 1; 1]);
    [discriminate | reflexivity | |]; repeat constructor; Lra.lra.
Defined.

Lemma price_ratios_lockstep (c : R) (h0 : list R) :
  Forall (fun price => 0 < price) h0 ->
  price_ratios h0 (map (Rmult c) h0) = Ok (repeat c (List.length h0)).
Proof.
  induction 1 as [|t0 rest Ht0 _ IH]; [reflexivity|].
  simpl. rewrite real_div_ok by Lra.lra. cbn [bind]. rewrite IH.
  cbn [bind]. do 2 f_equal. field. Lra.lra.
Qed.

Lemma np_sum_repeat (c : R) (n : nat) : np_sum (repeat c n) = INR n * c.
Proof.
  unfold np_sum. induction n as [|n IH].
  - simpl. ring.
  - rewrite S_INR. simpl repeat. simpl fold_right. rewrite IH. ring.
Qed.

Lemma np_std_repeat (c : R) (n : nat) :
  (0 < n)%nat -> np_std (repeat c n) = 0.
Proof.
  intros Hn. unfold np_std, np_mean.
  rewrite length_map, repeat_length, np_sum_repeat.
  assert (Hnz : INR n <> 0) by (apply not_0_INR; lia).
  replace (INR n * c / INR n) with c by (field; exact Hnz).
  rewrite map_repeat.
  replace (Rabs (c - c) ^ 2) with 0
    by (rewrite Rminus_diag, Rabs_R0; ring).
  rewrite np_sum_repeat.
  replace (INR n * 0 / INR n) with 0 by (field; exact Hnz).
  apply sqrt_0.
Qed.

Lemma repeat_sorted (c : R) (n : nat) : StronglySorted Rle (repeat c n).
Proof.
  induction n as [|n IH]; simpl; constructor; [exact IH|].
  apply Forall_forall. intros x Hx. apply repeat_spec in Hx. subst x.
  apply Rle_refl.
Qed.

(** X23. Two tokens whose prices move in lockstep (the second history is
    the first one times a positive constant) carry no impermanent-loss
    risk: for a non-empty history of positive prices the score is exactly
    0. *)
Theorem calculate_impermanent_loss_risk_lockstep :
  forall (c : R) (h0 : list R),
    h0 <> [] ->
    0 < c ->
    Forall (fun price => 0 < price) h0 ->
    calculate_impermanent_loss_risk h0 (map (Rmult c) h0) = Ok 0.
Proof.
  intros c h0 Hne Hc Hpos. unfold calculate_impermanent_loss_risk.
  rewrite length_map, Nat.eqb_refl. cbn [negb].
  rewrite (price_ratios_lockstep c h0 Hpos). cbn [bind].
  assert (Hn : (0 < List.length h0)%nat)
    by (destruct h0; [contradiction | simpl; lia]).
  rewrite (np_std_repeat c _ Hn).
  rewrite max_drawdown_rising.
  - cbn [bind reraise]. rewrite Rmin_right by Lra.lra. f_equal. ring.
  - destruct h0; [contradiction | discriminate].
  - apply Forall_forall. intros x Hx. apply repeat_spec in Hx. now subst x.
  - apply repeat_sorted.
Qed.

Lemma calculate_impermanent_loss_risk_lockstep_witness :
  calculate_impermanent_loss_risk [300; 310; 290] (map (Rmult 2) [300; 310; 290])
  = Ok 0.
Proof.
  apply (calculate_impermanent_loss_risk_lockstep 2 [300; 310; 290]);
    [discriminate | Lra.lra | repeat constructor; Lra.lra].
Defined.

End ImpermanentLoss.

Section ScannerPrices.
Import YieldScanner.

Lemma ADDRESSES_BUSD : dict_item ADDRESSES "BUSD" = Ok PriceCalculator.BUSD.
Proof. reflexivity. Qed.

Lemma ADDRESSES_WBNB : dict_item ADDRESSES "WBNB" = Ok PriceCalculator.WBNB.
Proof. reflexivity. Qed.

Lemma get_token_price_cached_returns (depth : nat) (chain : PairChain)
    (cache : list (string * Q)) (token_address : string) :
  exists price cache',
    get_token_price_cached (S depth) chain cache token_address
    = (Ok price, cache').
Proof.
  cbn [get_token_price_cached].
  rewrite ADDRESSES_BUSD, ADDRESSES_WBNB. cbn [bind].
  destruct (dict_get cache token_address); [now eauto|].
  destruct (String.eqb (lower token_address) (lower PriceCalculator.BUSD));
    [now eauto|].
  destruct (factory_getPair chain token_address PriceCalculator.BUSD)
    as [pair|]; cbn [bind]; [|now eauto].
  destruct (String.eqb pair NO_PAIR).
  - destruct (factory_getPair chain token_address PriceCalculator.WBNB)
      as [wbnb_pair|]; [|now eauto].
    destruct (String.eqb wbnb_pair NO_PAIR); [now eauto|].
    destruct (get_token_price_cached depth chain cache PriceCalculator.WBNB)
      as [[wbnb_price|] cache1]; cbn [bind]; [|now eauto].
    destruct (pair_ratio chain wbnb_pair token_address); cbn [bind];
      now eauto.
  - destruct (pair_ratio chain pair token_address); now eauto.
Qed.

(** X24. On a scanner that has a price cache, [get_token_price] never
    raises: every failure inside it is turned into a price of 0.  In
    particular a token with neither a BUSD nor a WBNB pair is priced 0 (and
    not cached), where [PriceCalculator.get_token_price] raises; and BUSD,
    in any letter case, is priced 1.0 without any call. *)
Theorem scanner_get_token_price_never_raises :
  (forall depth self chain cache token_address,
     price_cache self = Some cache ->
     exists price cache',
       get_token_price (S depth) self chain token_address
       = Ok (price, cache')) /\
  (forall depth self chain cache token_address,
     price_cache self = Some cache ->
     dict_get cache token_address = None ->
     String.eqb (lower token_address) (lower PriceCalculator.BUSD) = false ->
     factory_getPair chain token_address PriceCalculator.BUSD = Ok NO_PAIR ->
     factory_getPair chain token_address PriceCalculator.WBNB = Ok NO_PAIR ->
     get_token_price (S depth) self chain token_address = Ok (0, cache)) /\
  (forall depth self chain cache token_address,
     price_cache self = Some cache ->
     dict_get cache token_address = None ->
     lower token_address = lower PriceCalculator.BUSD ->
     get_token_price (S depth) self chain token_address = Ok (1.0, cache)).
Proof.
  split; [|split].
  - intros depth self chain cache token Hc. unfold get_token_price.
    rewrite Hc. cbn [attribute bind].
    destruct (get_token_price_cached_returns depth chain cache token)
      as [price [cache' ->]].
    now exists price, cache'.
  - intros depth self chain cache token Hc Hmiss Hnot Hbusd Hwbnb.
    unfold get_token_price. rewrite Hc. cbn [attribute bind].
    cbn [get_token_price_cached].
    rewrite ADDRESSES_BUSD, ADDRESSES_WBNB. cbn [bind].
    rewrite Hmiss, Hnot, Hbusd. cbn [bind]. rewrite String.eqb_refl, Hwbnb.
    rewrite String.eqb_refl. reflexivity.
  - intros depth self chain cache token Hc Hmiss Hbusd.
    unfold get_token_price. rewrite Hc. cbn [attribute bind].
    cbn [get_token_price_cached].
    rewrite ADDRESSES_BUSD. cbn [bind].
    rewrite Hmiss, Hbusd, String.eqb_refl. reflexivity.
Qed.

Lemma scanner_get_token_price_never_raises_witness :
  get_token_price 1000 scanner_with_age pairless_pair_chain
    "0x0E09FaBB73Bd3Ade0a17ECC321fD13a19e81cE82" = Ok (0, []) /\
  get_token_price 1000 scanner_with_age pairless_pair_chain
    "0xE9E7CEA3DEDCA5984780BAFC599BD69ADD087D56" = Ok (1.0, []).
Proof.
  destruct scanner_get_token_price_never_raises as [_ [Hnone Hbusd]].
  split.
  - apply (Hnone 999%nat scanner_with_age pairless_pair_chain []);
      reflexivity.
  - apply (Hbusd 999%nat scanner_with_age pairless_pair_chain []);
      reflexivity.
Defined.

(** X25. For a token that is not cached and has a BUSD pair, the scanner's
    price is the pair's reserve of the other token over its reserve of the
    token, whichever of the two is the pair's [token0] (the addresses are
    compared without regard to letter case); when the pair holds none of
    the token, the division by zero is caught and the price is 0. *)
Theorem scanner_direct_price_by_token0 :
  forall depth chain cache token_address pair reserves token0,
    dict_get cache token_address = None ->
    String.eqb (lower token_address) (lower PriceCalculator.BUSD) = false ->
    factory_getPair chain token_address PriceCalculator.BUSD = Ok pair ->
    String.eqb pair NO_PAIR = false ->
    pair_getReserves chain pair = Ok reserves ->
    pair_token0 chain pair = Ok token0 ->
    let own := if String.eqb (lower token_address) (lower token0)
               then PriceCalculator._reserve0 reserves
               else PriceCalculator._reserve1 reserves in
    let other := if String.eqb (lower token_address) (lower token0)
                 then PriceCalculator._reserve1 reserves
                 else PriceCalculator._reserve0 reserves in
    (own <> 0%Z ->
     fst (get_token_price_cached (S depth) chain cache token_address)
     = Ok (inject_Z other / inject_Z own)) /\
    (own = 0%Z ->
     fst (get_token_price_cached (S depth) chain cache token_address)
     = Ok 0).
Proof.
  intros depth chain cache token pair reserves token0
    Hmiss Hnot Hpair Hexists Hres Htok own other.
  cbn [get_token_price_cached].
  rewrite ADDRESSES_BUSD. cbn [bind].
  rewrite Hmiss, Hnot, Hpair. cbn [bind]. rewrite Hexists.
  unfold pair_ratio. rewrite Hres, Htok. cbn [bind].
  unfold own, other.
  destruct (String.eqb (lower token) (lower token0)); unfold int_div;
    (split; intros Hown;
     [apply Z.eqb_neq in Hown | apply Z.eqb_eq in Hown];
     rewrite Hown; reflexivity).
Qed.

Lemma scanner_direct_price_by_token0_witness :
  fst (get_token_price_cached 1000 wbnb_busd_pair_chain []
         PriceCalculator.WBNB)
  = Ok (inject_Z 300000000000000000000 / inject_Z 1000000000000000000).
Proof.
  apply (scanner_direct_price_by_token0 999 wbnb_busd_pair_chain []
           PriceCalculator.WBNB WBNB_BUSD_PAIR
           (PriceCalculator.mkReserves 1000000000000000000
              300000000000000000000 1700000000)
           PriceCalculator.WBNB);
    try reflexivity.
  discriminate.
Defined.

End ScannerPrices.

Section Constructor.
Import YieldScanner.

Lemma load_abis_keys (env : InitEnv) (files abis : list (string * string)) :
  load_abis env files = Ok abis -> map fst abis = map fst files.
Proof.
  revert abis. induction files as [|[key filename] rest IH]; intros abis.
  - intros H. now injection H as <-.
  - simpl. destruct (_load_abi env filename); [|discriminate]. cbn [bind].
    destruct (load_abis env rest) as [more|]; [|discriminate]. cbn [bind].
    intros H. injection H as <-. simpl. f_equal. now apply IH.
Qed.

Lemma dict_get_keys {V : Type} (d d' : list (string * V)) (key : string) :
  map fst d = map fst d' ->
  dict_get d key = None <-> dict_get d' key = None.
Proof.
  revert d'. induction d as [|[k v] rest IH]; intros [|[k' v'] rest'] H;
    try discriminate H; [tauto|].
  simpl in H. injection H as <- Hrest. simpl.
  destruct (String.eqb k key); [split; discriminate | now apply IH].
Qed.

Lemma init_contracts_raises (env : InitEnv) (abis : list (string * string)) :
  map fst abis = map fst ABI_FILES ->
  exists msg, _init_contracts env abis = Raise msg.
Proof.
  intros Hkeys.
  assert (Hrouter : dict_get abis "ROUTER" = None).
  { apply (dict_get_keys abis ABI_FILES "ROUTER" Hkeys). reflexivity. }
  unfold _init_contracts, CONTRACTS. cbn [init_contracts].
  change (dict_item ADDRESSES "PANCAKESWAP_FACTORY")
    with (Ok "0xcA143Ce32Fe78f1f7019d7d551a6402fC5350c73" : result string).
  change (dict_item ADDRESSES "PANCAKESWAP_ROUTER")
    with (Ok "0x10ED43C718714eb63d5aA57B78B54704E256024E" : result string).
  cbn [bind].
  destruct (dict_item abis "FACTORY") as [abi|m]; cbn [bind]; [|now eauto].
  destruct (new_contract env _ abi) as [c|m]; cbn [bind]; [|now eauto].
  unfold dict_item at 1. rewrite Hrouter. cbn [bind]. now eauto.
Qed.

(** X26. [YieldScanner.__init__] never returns: its contract table asks for
    the ABI [ROUTER], which the ABI table does not hold, so even when the
    Web3 objects, all nine ABI files and every contract can be built it
    raises [KeyError: 'ROUTER']; any earlier failure raises as well. *)
Theorem scanner_constructor_never_returns :
  (forall env : InitEnv, exists msg, __init__ env = Raise msg) /\
  (forall env : InitEnv,
     new_web3 env = Ok tt ->
     inject_middleware env = Ok tt ->
     new_async_web3 env = Ok tt ->
     (forall filename, exists abi, read_abi env filename = Ok abi) ->
     (forall address abi, exists contract,
        new_contract env address abi = Ok contract) ->
     __init__ env = Raise "'ROUTER'").
Proof.
  split.
  - intros env. unfold __init__.
    destruct (new_web3 env); cbn [bind]; [|now eauto].
    destruct (inject_middleware env); cbn [bind]; [|now eauto].
    destruct (new_async_web3 env); cbn [bind]; [|now eauto].
    destruct (load_abis env ABI_FILES) as [abis|] eqn:Habis; cbn [bind];
      [|now eauto].
    destruct (init_contracts_raises env abis (load_abis_keys _ _ _ Habis))
      as [msg ->].
    cbn [bind]. now eauto.
  - intros env Hw Hm Ha Hread Hcontract. unfold __init__.
    rewrite Hw, Hm, Ha. cbn [bind].
    unfold ABI_FILES. cbn [load_abis]. unfold _load_abi.
    repeat match goal with
           | |- context [read_abi env ?f] =>
               let abi := fresh "abi" in
               let E := fresh "E" in
               destruct (Hread f) as [abi E]; rewrite E; clear E
           end.
    cbn [bind]. unfold _init_contracts, CONTRACTS. cbn [init_contracts].
    change (dict_item ADDRESSES "PANCAKESWAP_FACTORY")
      with (Ok "0xcA143Ce32Fe78f1f7019d7d551a6402fC5350c73" : result string).
    change (dict_item ADDRESSES "PANCAKESWAP_ROUTER")
      with (Ok "0x10ED43C718714eb63d5aA57B78B54704E256024E" : result string).
    cbn [bind]. cbn [dict_item dict_get String.eqb Ascii.eqb Bool.eqb].
    cbn [bind].
    match goal with
    | |- context [new_contract env ?a ?b] =>
        destruct (Hcontract a b) as [c E]; rewrite E
    end.
    reflexivity.
Qed.

Lemma scanner_constructor_never_returns_witness :
  __init__ ideal_environment = Raise "'ROUTER'".
Proof.
  apply (proj2 scanner_constructor_never_returns ideal_environment);
    try reflexivity.
  - intros filename. now exists "[]".
  - intros address abi. now exists (address, abi).
Defined.

End Constructor.

Section Utilization.
Import YieldScanner.

(** X27. The utilisation rate of a lending pool is 0 for a pool without
    supply (no division is attempted), and for borrows between 0 and the
    supply it is a percentage between 0 and 100. *)
Theorem calculate_utilization_rate_range :
  (forall total_borrows : Z,
     _calculate_utilization_rate total_borrows 0 = 0) /\
  (forall total_borrows total_supply : Z,
     (0 <= total_borrows <= total_supply)%Z ->
     (0 < total_supply)%Z ->
     0 <= _calculate_utilization_rate total_borrows total_supply <= 100).
Proof.
  split; [reflexivity|].
  intros borrows supply [H0 Hle] Hpos. unfold _calculate_utilization_rate.
  assert (E : (supply =? 0)%Z = false) by (apply Z.eqb_neq; lia).
  rewrite E.
  assert (Hs : 0 < inject_Z supply)
    by (change 0 with (inject_Z 0); now rewrite <- Zlt_Qlt).
  assert (Hb : 0 <= inject_Z borrows)
    by (change 0 with (inject_Z 0); now rewrite <- Zle_Qle).
  assert (Hbs : inject_Z borrows <= inject_Z supply) by now rewrite <- Zle_Qle.
  assert (Hlo : 0 <= inject_Z borrows / inject_Z supply)
    by (apply Qle_shift_div_l; [exact Hs | lra]).
  assert (Hhi : inject_Z borrows / inject_Z supply <= 1)
    by (apply Qle_shift_div_r; [exact Hs | lra]).
  split; lra.
Qed.

Lemma calculate_utilization_rate_range_witness :
  0 <= _calculate_utilization_rate 25 100 <= 100.
Proof.
  apply (proj2 calculate_utilization_rate_range 25%Z 100%Z); lia.
Defined.

End Utilization.
